(** * KIM-1 driver (src/mame/drivers/kim1.cpp): keyboard, display, cassette
      and video-window callbacks of [kim1_state]

    The driver class [kim1_state] (includes/kim1.h) is embedded as a record
    of its data members.  Every callback is a computation in a small monad
    that threads the driver state, records the calls made on the devices the
    driver talks to (the output manager, the cassette image device, the CPU
    input lines) and fails where the C++ code would index an array outside
    its bounds. *)

From Stdlib Require Import ZArith Lia Bool.
From Stdlib Require Import Floats.SpecFloat.
From stdpp Require Import base list.

Local Open Scope Z_scope.

(** ** Fixed-width integers *)

(** Conversion to [uint8_t] and [uint32_t]. *)
Definition u8 (x : Z) : Z := x mod 256.
Definition u32 (x : Z) : Z := x mod 2 ^ 32.

Definition is_u8 (x : Z) : Prop := 0 <= x < 256.
Definition is_u32 (x : Z) : Prop := 0 <= x < 2 ^ 32.

(** A C condition [if (e)] on an integer expression. *)
Definition nonzero (x : Z) : bool := negb (x =? 0).

(** ** Doubles

    [m_cass->input()] yields a [double] and [m_cass->output] takes one; they
    are IEEE-754 values, of which the driver only compares with zero. *)
Definition double : Type := spec_float.
Definition dbl_zero : double := S754_zero false.
Definition dbl_one : double := S754_finite false 4503599627370496 (-52).
Definition dbl_minus_one : double := S754_finite true 4503599627370496 (-52).

(** ** The driver state *)

Record kim1_state : Type := mk_kim1_state {
  m_videoram : list Z;            (* required_shared_ptr<uint8_t>, share "videoram" *)
  m_u2_port_b : Z;                (* uint8_t *)
  m_311_output : Z;               (* uint8_t *)
  m_cassette_high_count : Z;      (* uint32_t *)
  m_led_time : list Z;            (* uint8_t [6] *)
  m_flipscreen : Z;               (* uint8_t *)
  m_madsel_lastcycles : Z         (* uint64_t *)
}.

Definition set_videoram (v : list Z) (s : kim1_state) : kim1_state :=
  mk_kim1_state v (m_u2_port_b s) (m_311_output s) (m_cassette_high_count s)
                (m_led_time s) (m_flipscreen s) (m_madsel_lastcycles s).
Definition set_u2_port_b (v : Z) (s : kim1_state) : kim1_state :=
  mk_kim1_state (m_videoram s) v (m_311_output s) (m_cassette_high_count s)
                (m_led_time s) (m_flipscreen s) (m_madsel_lastcycles s).
Definition set_311_output (v : Z) (s : kim1_state) : kim1_state :=
  mk_kim1_state (m_videoram s) (m_u2_port_b s) v (m_cassette_high_count s)
                (m_led_time s) (m_flipscreen s) (m_madsel_lastcycles s).
Definition set_cassette_high_count (v : Z) (s : kim1_state) : kim1_state :=
  mk_kim1_state (m_videoram s) (m_u2_port_b s) (m_311_output s) v
                (m_led_time s) (m_flipscreen s) (m_madsel_lastcycles s).
Definition set_led_time (v : list Z) (s : kim1_state) : kim1_state :=
  mk_kim1_state (m_videoram s) (m_u2_port_b s) (m_311_output s)
                (m_cassette_high_count s) v (m_flipscreen s)
                (m_madsel_lastcycles s).

(** The address map gives the share "videoram" the range 0x4000-0x5fff. *)
Definition videoram_base : Z := 0x4000.
Definition videoram_end : Z := 0x5fff.
Definition videoram_size : Z := videoram_end - videoram_base + 1.

(** What the C++ types guarantee of a state. *)
Record wf_state (s : kim1_state) : Prop := mk_wf_state {
  wf_videoram_len : Z.of_nat (length (m_videoram s)) = videoram_size;
  wf_videoram : Forall is_u8 (m_videoram s);
  wf_u2_port_b : is_u8 (m_u2_port_b s);
  wf_311_output : is_u8 (m_311_output s);
  wf_cassette_high_count : is_u32 (m_cassette_high_count s);
  wf_led_time_len : length (m_led_time s) = 6%nat;
  wf_led_time : Forall is_u8 (m_led_time s)
}.

(** ** Devices around the driver *)

Inductive input_line : Type := INPUT_LINE_RESET | INPUT_LINE_NMI.
Inductive line_state : Type := CLEAR_LINE | ASSERT_LINE.

(** Calls the driver makes on other devices. *)
Inductive event : Type :=
| set_digit_value (index : Z) (value : Z)        (* output().set_digit_value *)
| cass_output (level : double)                   (* m_cass->output *)
| set_input_line (l : input_line) (v : line_state). (* m_maincpu->set_input_line *)

(** The three keyboard rows, as [m_row0->read()] and the like return them. *)
Record rows : Type := mk_rows { ROW0 : Z; ROW1 : Z; ROW2 : Z }.

(** ** The monad of the callbacks

    A computation takes the state and either fails (an array indexed out of
    its bounds: the C++ behaviour is undefined there) or gives a result, the
    next state and the device calls made, oldest first. *)
Definition M (A : Type) : Type :=
  kim1_state -> option (A * kim1_state * list event).

#[global] Instance M_ret : MRet M := fun A x s => Some (x, s, []).
#[global] Instance M_bind : MBind M := fun A B f m s =>
  match m s with
  | Some (x, s1, e1) =>
      match f x s1 with
      | Some (y, s2, e2) => Some (y, s2, e1 ++ e2)
      | None => None
      end
  | None => None
  end.

Definition get : M kim1_state := fun s => Some (s, s, []).
Definition modify (f : kim1_state -> kim1_state) : M unit :=
  fun s => Some (tt, f s, []).
Definition emit (e : event) : M unit := fun s => Some (tt, s, [e]).
Definition undefined {A : Type} : M A := fun _ => None.
Definition when (c : bool) (m : M unit) : M unit := if c then m else mret tt.

(** [a[i]] and [a[i] = v] on a C array. *)
Definition array_get (a : list Z) (i : Z) : M Z :=
  if decide (0 <= i) then
    match a !! Z.to_nat i with
    | Some v => mret v
    | None => undefined
    end
  else undefined.

Definition array_set (a : list Z) (i : Z) (v : Z) : M (list Z) :=
  if decide (0 <= i < Z.of_nat (length a)) then mret (<[Z.to_nat i := v]> a)
  else undefined.

(** [for (i = lo; ...; i++) body], for a loop that runs [n] times. *)
Fixpoint for_loop (n : nat) (i : Z) (body : Z -> M unit) : M unit :=
  match n with
  | O => mret tt
  | S n' => body i ;; for_loop n' (i + 1) body
  end.

(** The state a computation leaves. *)
Definition state_of {A : Type} (m : M A) (s : kim1_state) : option kim1_state :=
  match m s with Some (_, s', _) => Some s' | None => None end.

(** ** The callbacks *)

(** [INPUT_CHANGED_MEMBER(kim1_state::trigger_reset)] and [trigger_nmi]. *)
Definition trigger_reset (newval : Z) : M unit :=
  emit (set_input_line INPUT_LINE_RESET
          (if nonzero newval then CLEAR_LINE else ASSERT_LINE)).
Definition trigger_nmi (newval : Z) : M unit :=
  emit (set_input_line INPUT_LINE_NMI
          (if nonzero newval then CLEAR_LINE else ASSERT_LINE)).

(** [( m_u2_port_b >> 1 ) & 0x0f], the output of the 74145 decoder. *)
Definition row_select (port_b : Z) : Z := Z.land (Z.shiftr port_b 1) 0x0f.

(** [READ8_MEMBER( kim1_state::kim1_u2_read_a )]: read from keyboard. *)
Definition kim1_u2_read_a (r : rows) : M Z :=
  s ← get;
  let data := 0xff in
  let data :=
    match row_select (m_u2_port_b s) with
    | 0 => u8 (ROW0 r)
    | 1 => u8 (ROW1 r)
    | 2 => u8 (ROW2 r)
    | _ => data
    end in
  mret data.

(** [WRITE8_MEMBER( kim1_state::kim1_u2_write_a )]: write to 7-segment LEDs. *)
Definition kim1_u2_write_a (data : Z) : M unit :=
  s ← get;
  let idx := u8 (row_select (m_u2_port_b s)) in
  when ((4 <=? idx) && (idx <? 10))
    (when (nonzero (Z.land data 0x80))
       (emit (set_digit_value (idx - 4) (Z.land data 0x7f)) ;;
        a ← array_set (m_led_time s) (idx - 4) 15;
        modify (set_led_time a))).

(** [READ8_MEMBER( kim1_state::kim1_u2_read_b )]: load from cassette.
    [portb_out] is what [m_riot2->portb_out_get()] returns. *)
Definition kim1_u2_read_b (portb_out : Z) : M Z :=
  s ← get;
  if nonzero (Z.land portb_out 0x20) then mret 0xFF
  else mret (u8 (Z.lor 0x7F (Z.lxor (m_311_output s) 0x80))).

(** [WRITE8_MEMBER( kim1_state::kim1_u2_write_b )]: save to cassette. *)
Definition kim1_u2_write_b (data : Z) : M unit :=
  modify (set_u2_port_b data) ;;
  when (nonzero (Z.land data 0x20))
    (emit (cass_output (if nonzero (Z.land data 0x80)
                        then dbl_minus_one else dbl_one))).

(** [TIMER_DEVICE_CALLBACK_MEMBER(kim1_state::kim1_cassette_input)];
    [tap_val] is what [m_cass->input()] returns. *)
Definition kim1_cassette_input (tap_val : double) : M unit :=
  when (SFleb tap_val dbl_zero)
    (s ← get;
     when (nonzero (m_cassette_high_count s))
       (modify (set_311_output
                  (if m_cassette_high_count s <? 8 then 0x80 else 0)) ;;
        modify (set_cassette_high_count 0))) ;;
  when (SFltb dbl_zero tap_val)
    (s ← get;
     modify (set_cassette_high_count (u32 (m_cassette_high_count s + 1)))).

(** [TIMER_DEVICE_CALLBACK_MEMBER(kim1_state::kim1_update_leds)]: blank LEDs
    during cassette operations.  [update_led i] is the body of its loop. *)
Definition update_led (i : Z) : M unit :=
  s ← get;
  t ← array_get (m_led_time s) i;
  if nonzero t then
    a ← array_set (m_led_time s) i (u8 (t - 1));
    modify (set_led_time a)
  else
    emit (set_digit_value i 0).

Definition kim1_update_leds : M unit := for_loop 6 0 update_led.

(** [kim1_state::machine_start]: registers three members for save states. *)
Definition machine_start : M unit := mret tt.

(** [kim1_state::machine_reset]. *)
Definition machine_reset : M unit :=
  for_loop 6 0 (fun i =>
    s ← get;
    a ← array_set (m_led_time s) i 0;
    modify (set_led_time a)) ;;
  modify (set_311_output 0) ;;
  modify (set_cassette_high_count 0).

(** [WRITE8_MEMBER(kim1_state::missile_w)]: the body returns from inside
    [if (1==1)], what follows it is never run. *)
Definition missile_w (offset : Z) (data : Z) : M unit :=
  s ← get;
  a ← array_set (m_videoram s) offset data;
  modify (set_videoram a).

(** [READ8_MEMBER(kim1_state::missile_r)]: returns from [if (1==1)] too. *)
Definition missile_r (offset : Z) : M Z :=
  s ← get;
  let result := 0xff in
  result ← array_get (m_videoram s) offset;
  mret result.

(** Modelled from the spec: the memory system that expands
    [AM_RANGE(0x4000, 0x5fff) AM_READWRITE(missile_r, missile_w)
    AM_SHARE("videoram")] of [kim1_map] is not part of the driver.  It routes
    the CPU accesses of the window 0x4000-0x5fff to the two handlers, which
    index the video buffer (the share, as large as the window) by the
    distance of the address to the start of the window.  The other ranges
    of [kim1_map] belong to other devices and have no result here. *)
Definition bus_write (address : Z) (data : Z) : M unit :=
  if decide (videoram_base <= address <= videoram_end)
  then missile_w (address - videoram_base) data
  else undefined.

(** Modelled from the spec: the read side of the same window (the memory
    system is missing, see [bus_write]). *)
Definition bus_read (address : Z) : M Z :=
  if decide (videoram_base <= address <= videoram_end)
  then missile_r (address - videoram_base)
  else undefined.

(** ** The timers, unfolded *)

(** What one tick does to one age counter, and the blank commands a tick
    issues for the counters [l] of the digits from [i] on. *)
Definition tick_age (t : Z) : Z := if nonzero t then u8 (t - 1) else t.

Fixpoint blanks (i : Z) (l : list Z) : list event :=
  match l with
  | [] => []
  | t :: l' =>
      (if nonzero t then [] else [set_digit_value i 0]) ++ blanks (i + 1) l'
  end.

(** The state after [n] invocations of the LED ticker with nothing between. *)
Fixpoint after_ticks (n : nat) (s : kim1_state) : option kim1_state :=
  match n with
  | O => Some s
  | S n' => s' ← after_ticks n' s; state_of kim1_update_leds s'
  end.

(** The cassette sampler fed with one sample after the other. *)
Fixpoint feed (samples : list double) : M unit :=
  match samples with
  | [] => mret tt
  | t :: rest => kim1_cassette_input t ;; feed rest
  end.

(** ** The machine as a transition system *)

(** What can happen to the driver: the adapter calls a port callback, a
    timer fires, the machine starts or is reset, the CPU accesses the video
    window, a key of the SPECIAL port changes. *)
Inductive op : Type :=
| op_u2_read_a (r : rows)
| op_u2_write_a (data : Z)
| op_u2_read_b (portb_out : Z)
| op_u2_write_b (data : Z)
| op_cassette_input (tap_val : double)
| op_update_leds
| op_machine_start
| op_machine_reset
| op_missile_w (offset data : Z)
| op_missile_r (offset : Z)
| op_trigger_reset (newval : Z)
| op_trigger_nmi (newval : Z).

Definition step (o : op) (s : kim1_state) : option kim1_state :=
  match o with
  | op_u2_read_a r => state_of (kim1_u2_read_a r) s
  | op_u2_write_a data => state_of (kim1_u2_write_a data) s
  | op_u2_read_b portb_out => state_of (kim1_u2_read_b portb_out) s
  | op_u2_write_b data => state_of (kim1_u2_write_b data) s
  | op_cassette_input tap_val => state_of (kim1_cassette_input tap_val) s
  | op_update_leds => state_of kim1_update_leds s
  | op_machine_start => state_of machine_start s
  | op_machine_reset => state_of machine_reset s
  | op_missile_w offset data => state_of (missile_w offset data) s
  | op_missile_r offset => state_of (missile_r offset) s
  | op_trigger_reset newval => state_of (trigger_reset newval) s
  | op_trigger_nmi newval => state_of (trigger_nmi newval) s
  end.

(** The states the machine goes through: those a reset leaves, and those
    any operation leads to from there. *)
Inductive reachable : kim1_state -> Prop :=
| reachable_reset (s s' : kim1_state) :
    length (m_led_time s) = 6%nat ->
    state_of machine_reset s = Some s' ->
    reachable s'
| reachable_step (o : op) (s s' : kim1_state) :
    reachable s ->
    step o s = Some s' ->
    reachable s'.

(** A display write that reaches digit [d]: bit 7 of the byte is set and
    the port-B shadow selects that digit. *)
Definition writes_digit (d : Z) (o : op) (s : kim1_state) : Prop :=
  match o with
  | op_u2_write_a data =>
      Z.testbit data 7 = true /\ row_select (m_u2_port_b s) - 4 = d
  | _ => False
  end.

(** [quiet_run d s k s']: the machine goes from [s] to [s'] through [k]
    invocations of the LED ticker and any other operations between them,
    none of them a reset or a display write that reaches digit [d]. *)
Inductive quiet_run (d : Z) (s : kim1_state) : nat -> kim1_state -> Prop :=
| quiet_start : quiet_run d s 0 s
| quiet_tick (k : nat) (s1 s2 : kim1_state) :
    quiet_run d s k s1 ->
    step op_update_leds s1 = Some s2 ->
    quiet_run d s (S k) s2
| quiet_other (k : nat) (o : op) (s1 s2 : kim1_state) :
    quiet_run d s k s1 ->
    o <> op_update_leds ->
    o <> op_machine_reset ->
    ~ writes_digit d o s1 ->
    step o s1 = Some s2 ->
    quiet_run d s k s2.

(** The bytes an operation carries are bytes; the offset of a video-window
    access is inside the video buffer. *)
Definition op_typed (o : op) : Prop :=
  match o with
  | op_u2_write_a data | op_u2_write_b data | op_missile_w _ data => is_u8 data
  | _ => True
  end.

Definition op_in_bounds (o : op) (s : kim1_state) : Prop :=
  match o with
  | op_missile_w offset _ | op_missile_r offset =>
      0 <= offset < Z.of_nat (length (m_videoram s))
  | _ => True
  end.

(** The next state of every operation, case by case. *)
Definition step_spec (o : op) (s : kim1_state) (r : option kim1_state) : Prop :=
  match o with
  | op_u2_read_a _ | op_u2_read_b _ | op_machine_start
  | op_trigger_reset _ | op_trigger_nmi _ => r = Some s
  | op_u2_write_a _ =>
      r = Some s \/
      exists i, r = Some (set_led_time (<[i := 15]> (m_led_time s)) s)
  | op_u2_write_b data => r = Some (set_u2_port_b data s)
  | op_cassette_input _ =>
      r = Some s \/
      r = Some (set_cassette_high_count
                  (u32 (m_cassette_high_count s + 1)) s) \/
      exists v, (v = 0x80 \/ v = 0) /\
                r = Some (set_cassette_high_count 0 (set_311_output v s))
  | op_update_leds =>
      r = Some (set_led_time (tick_age <$> m_led_time s) s)
  | op_machine_reset =>
      r = Some (mk_kim1_state (m_videoram s) (m_u2_port_b s) 0 0
                  [0; 0; 0; 0; 0; 0] (m_flipscreen s) (m_madsel_lastcycles s))
  | op_missile_w offset data =>
      if decide (0 <= offset < Z.of_nat (length (m_videoram s)))
      then r = Some (set_videoram
                       (<[Z.to_nat offset := data]> (m_videoram s)) s)
      else r = None
  | op_missile_r offset =>
      if decide (0 <= offset < Z.of_nat (length (m_videoram s)))
      then r = Some s
      else r = None
  end.

(** What each operation does to the age counters: the port-A write may set
    one to 15, the ticker passes each through [tick_age], the reset zeroes
    them, and no other operation touches them. *)
Definition led_time_effect (o : op) (s s' : kim1_state) : Prop :=
  match o with
  | op_u2_write_a _ =>
      m_led_time s' = m_led_time s \/
      exists i, m_led_time s' = <[i := 15]> (m_led_time s)
  | op_update_leds => m_led_time s' = tick_age <$> m_led_time s
  | op_machine_reset => m_led_time s' = [0; 0; 0; 0; 0; 0]
  | _ => m_led_time s' = m_led_time s
  end.

(** What each operation does to the tone output: the cassette sampler may
    assign 0x80 or 0, the reset assigns 0, no other operation touches it. *)
Definition tone_effect (o : op) (s s' : kim1_state) : Prop :=
  match o with
  | op_cassette_input _ =>
      m_311_output s' = m_311_output s \/
      m_311_output s' = 0x80 \/
      m_311_output s' = 0
  | op_machine_reset => m_311_output s' = 0
  | _ => m_311_output s' = m_311_output s
  end.

(** The age counters are six values of [0,15]. *)
Definition led_time_inv (s : kim1_state) : Prop :=
  length (m_led_time s) = 6%nat /\
  Forall (fun t => 0 <= t <= 15) (m_led_time s).

(** The tone output is 0 or 0x80. *)
Definition tone_inv (s : kim1_state) : Prop :=
  m_311_output s = 0 \/ m_311_output s = 0x80.

(** ** Sample states *)

(** Port B selects keyboard row 2. *)
Definition st_row2 : kim1_state :=
  mk_kim1_state [] 4 0 0 [0; 0; 0; 0; 0; 0] 0 0.

(** Port B selects digit 3 ([rowSelect = 7]). *)
Definition st_digit3 : kim1_state :=
  mk_kim1_state [] 0x0E 0 0 [0; 0; 0; 0; 0; 0] 0 0.

(** The tone output is high. *)
Definition st_tone_high : kim1_state :=
  mk_kim1_state [] 0 0x80 0 [0; 0; 0; 0; 0; 0] 0 0.

(** Five samples above zero have been counted. *)
Definition st_run5 : kim1_state :=
  mk_kim1_state [] 0 0 5 [0; 0; 0; 0; 0; 0] 0 0.

(** A cleared video buffer. *)
Definition st_video : kim1_state :=
  mk_kim1_state (replicate 0x2000 0) 0 0 0 [0; 0; 0; 0; 0; 0] 0 0.

(** A machine in use: the port-B shadow, the tone output, the run length
    and some age counters are not zero. *)
Definition st_port_b_set : kim1_state :=
  mk_kim1_state [] 0x0E 0x80 3 [15; 0; 7; 0; 0; 1] 0 0.

(** [st_port_b_set] after a reset. *)
Definition st_after_reset : kim1_state :=
  mk_kim1_state [] 0x0E 0 0 [0; 0; 0; 0; 0; 0] 0 0.

(** A reset, a display write on digit 3 and two ticks. *)
Definition st_two_ticks : kim1_state :=
  mk_kim1_state [] 0x0E 0 0 [0; 0; 0; 13; 0; 0] 0 0.

(** A reset, five samples above zero and one below. *)
Definition st_short_run : kim1_state :=
  mk_kim1_state [] 0x0E 0x80 0 [0; 0; 0; 0; 0; 0] 0 0.

(** ** The rest of the driver

    The MADSEL test, the video RAM accessors behind it and the screen
    update, none of which the port callbacks reach. *)

Definition u64 (x : Z) : Z := x mod 2 ^ 64.

Definition set_madsel_lastcycles (v : Z) (s : kim1_state) : kim1_state :=
  mk_kim1_state (m_videoram s) (m_u2_port_b s) (m_311_output s)
                (m_cassette_high_count s) (m_led_time s) (m_flipscreen s) v.

(** [kim1_state::get_madsel]; [total_cycles] is what
    [m_maincpu->total_cycles()] returns, a [uint64_t]. *)
Definition get_madsel (total_cycles : Z) : M bool :=
  s ← get;
  let madsel := false in
  if nonzero (m_madsel_lastcycles s) then
    let madsel := u64 (total_cycles - m_madsel_lastcycles s) =? 5 in
    when madsel (modify (set_madsel_lastcycles 0)) ;;
    mret madsel
  else mret madsel.

(** [kim1_state::write_vram]: stores at [m_videoram[address]] and returns
    from [if (1==1) return;], the bit-packed path below it is never run. *)
Definition write_vram (address : Z) (data : Z) : M unit :=
  s ← get;
  let vramaddr := address in
  a ← array_set (m_videoram s) vramaddr data;
  modify (set_videoram a).

(** [kim1_state::read_vram]: returns [m_videoram[address]] from
    [if (1==1) return result;]. *)
Definition read_vram (address : Z) : M Z :=
  s ← get;
  let result := 0xff in
  let vramaddr := address in
  result ← array_get (m_videoram s) vramaddr;
  mret result.

(** [const rectangle &cliprect]. *)
Record rectangle : Type := mk_rectangle {
  min_x : Z; max_x : Z; min_y : Z; max_y : Z
}.

(** [bitmap_rgb32 &bitmap]: [bm y x] is the pixel [(&bitmap.pix32(y))[x]]. *)
Definition bitmap : Type := Z -> Z -> Z.

(** [dst[x] = v] for [dst = &bitmap.pix32(y)]. *)
Definition pix_set (bm : bitmap) (y x v : Z) : bitmap :=
  fun y' x' => if decide (y' = y /\ x' = x) then v else bm y' x'.

(** [for (i = lo; i <= hi; i += step) body]: the body runs [trip_count]
    times, see [for_up_unfold] for the equation of the loop. *)
Fixpoint loop_from {A : Type} (n : nat) (i step : Z)
         (body : Z -> A -> option A) (a : A) : option A :=
  match n with
  | O => Some a
  | S n' => a' ← body i a; loop_from n' (i + step) step body a'
  end.

Definition trip_count (lo hi step : Z) : nat :=
  if decide (lo <= hi) then Z.to_nat ((hi - lo) / step + 1) else O.

Definition for_up {A : Type} (lo hi step : Z)
           (body : Z -> A -> option A) (a : A) : option A :=
  loop_from (trip_count lo hi step) lo step body a.

(** [p[i]] for a pointer [p] into the video RAM. *)
Definition vram_read (a : list Z) (i : Z) : option Z :=
  if decide (0 <= i) then a !! Z.to_nat i else None.

(** [(pix & m) ? dst[x] = 0xffffff : dst[x] = 0x0]. *)
Definition pix_colour (pix m : Z) : Z :=
  if nonzero (Z.land pix m) then 0xffffff else 0x0.

(** The eight assignments of the inner loop of the screen update. *)
Definition draw8 (bm : bitmap) (y x pix : Z) : bitmap :=
  let bm := pix_set bm y x (pix_colour pix 128) in
  let bm := pix_set bm y (x + 1) (pix_colour pix 64) in
  let bm := pix_set bm y (x + 2) (pix_colour pix 32) in
  let bm := pix_set bm y (x + 3) (pix_colour pix 16) in
  let bm := pix_set bm y (x + 4) (pix_colour pix 8) in
  let bm := pix_set bm y (x + 5) (pix_colour pix 4) in
  let bm := pix_set bm y (x + 6) (pix_colour pix 2) in
  pix_set bm y (x + 7) (pix_colour pix 1).

(** [int effy = m_flipscreen ? (y & 0xff) : (199 - y) & 0xff]. *)
Definition effy (s : kim1_state) (y : Z) : Z :=
  if nonzero (m_flipscreen s) then Z.land y 0xff else Z.land (199 - y) 0xff.

(** The loop over X of the screen update, for the row [y]. *)
Definition draw_row (s : kim1_state) (cliprect : rectangle) (y : Z)
           (bm : bitmap) : option bitmap :=
  let src := effy s y * 40 in
  for_up (min_x cliprect) (max_x cliprect) 8
    (fun x bm =>
       pix ← vram_read (m_videoram s) (src + Z.quot x 8);
       Some (draw8 bm y x pix)) bm.

(** [kim1_state::screen_update_kim1]: the value returned and the bitmap
    left; the driver state is only read. *)
Definition screen_update_kim1 (s : kim1_state) (bm : bitmap)
           (cliprect : rectangle) : option (Z * bitmap) :=
  bm' ← for_up (min_y cliprect) (max_y cliprect) 1 (draw_row s cliprect) bm;
  Some (0, bm').

(** The colour the update gives the pixel [(x, y)] of a clip rectangle:
    the loop over X reaches the pixel in the round that starts at [xi], and
    there reads the byte at [src[xi / 8]]. *)
Definition drawn_pixel (s : kim1_state) (cliprect : rectangle) (y x : Z) : Z :=
  let xi := min_x cliprect + 8 * ((x - min_x cliprect) / 8) in
  match vram_read (m_videoram s) (effy s y * 40 + Z.quot xi 8) with
  | Some pix => if Z.testbit pix (7 - (x - xi)) then 0xffffff else 0x0
  | None => 0x0
  end.

(** The pixel [(x, y)] as the video RAM holds it: forty bytes a row, eight
    pixels a byte, the leftmost pixel in bit 7. *)
Definition vram_pixel (s : kim1_state) (y x : Z) : Z :=
  match vram_read (m_videoram s) (effy s y * 40 + x / 8) with
  | Some pix => if Z.testbit pix (7 - x mod 8) then 0xffffff else 0x0
  | None => 0x0
  end.

(** The visible area of the screen: [HTOTAL] by [VTOTAL] pixels. *)
Definition HTOTAL : Z := 320.
Definition VTOTAL : Z := 200.

Definition in_visible_area (c : rectangle) : Prop :=
  0 <= min_x c /\ max_x c < HTOTAL /\ 0 <= min_y c /\ max_y c < VTOTAL.

(** ** Sequences of operations *)

(** The device calls a computation makes. *)
Definition calls_of {A : Type} (m : M A) (s : kim1_state)
  : option (list event) :=
  match m s with Some (_, _, e) => Some e | None => None end.

Definition step_calls (o : op) (s : kim1_state) : option (list event) :=
  match o with
  | op_u2_read_a r => calls_of (kim1_u2_read_a r) s
  | op_u2_write_a data => calls_of (kim1_u2_write_a data) s
  | op_u2_read_b portb_out => calls_of (kim1_u2_read_b portb_out) s
  | op_u2_write_b data => calls_of (kim1_u2_write_b data) s
  | op_cassette_input tap_val => calls_of (kim1_cassette_input tap_val) s
  | op_update_leds => calls_of kim1_update_leds s
  | op_machine_start => calls_of machine_start s
  | op_machine_reset => calls_of machine_reset s
  | op_missile_w offset data => calls_of (missile_w offset data) s
  | op_missile_r offset => calls_of (missile_r offset) s
  | op_trigger_reset newval => calls_of (trigger_reset newval) s
  | op_trigger_nmi newval => calls_of (trigger_nmi newval) s
  end.

(** The operations of a list, one after the other. *)
Fixpoint run_ops (os : list op) (s : kim1_state) : option kim1_state :=
  match os with
  | [] => Some s
  | o :: os' => s' ← step o s; run_ops os' s'
  end.

(** The operations that only read: the two port reads, the video-window
    read, the machine start and the two key callbacks. *)
Definition read_only (o : op) : Prop :=
  match o with
  | op_u2_read_a _ | op_u2_read_b _ | op_missile_r _ | op_machine_start
  | op_trigger_reset _ | op_trigger_nmi _ => True
  | _ => False
  end.

(** The offsets of the video-window accesses of a list are below [n]. *)
Definition video_offsets_below (n : Z) (os : list op) : Prop :=
  Forall (fun o => match o with
                   | op_missile_w offset _ | op_missile_r offset =>
                       0 <= offset < n
                   | _ => True
                   end) os.

(** ** Bits and bytes *)

(** A property checked on the 256 bytes holds of every byte. *)
Lemma byte_forall (P : Z -> bool) :
  forallb P (map Z.of_nat (seq 0 256)) = true ->
  forall x, is_u8 x -> P x = true.
Proof.
  intros Hall x [Hlo Hhi].
  rewrite forallb_forall in Hall. apply Hall.
  apply in_map_iff. exists (Z.to_nat x). split; [lia|].
  apply in_seq. lia.
Qed.

(** [x & (1 << n)] is nonzero exactly when bit [n] of [x] is set. *)
Lemma nonzero_land_pow2 (x n : Z) :
  0 <= n -> nonzero (Z.land x (2 ^ n)) = Z.testbit x n.
Proof.
  intros Hn. unfold nonzero.
  destruct (Z.testbit x n) eqn:Hb.
  - apply negb_true_iff, Z.eqb_neq. intros H0.
    assert (Hc : Z.testbit (Z.land x (2 ^ n)) n = true).
    { rewrite Z.land_spec, Hb, Z.pow2_bits_true by lia. reflexivity. }
    rewrite H0, Z.bits_0 in Hc. discriminate.
  - apply negb_false_iff, Z.eqb_eq. apply Z.bits_inj'. intros m Hm.
    rewrite Z.land_spec, Z.bits_0.
    destruct (Z.eq_dec n m) as [->|Hne].
    + rewrite Hb. reflexivity.
    + rewrite Z.pow2_bits_false by lia. apply andb_false_r.
Qed.

Lemma nonzero_land_0x20 (x : Z) : nonzero (Z.land x 0x20) = Z.testbit x 5.
Proof. apply (nonzero_land_pow2 x 5). lia. Qed.

Lemma nonzero_land_0x80 (x : Z) : nonzero (Z.land x 0x80) = Z.testbit x 7.
Proof. apply (nonzero_land_pow2 x 7). lia. Qed.

Lemma row_select_range (b : Z) : 0 <= row_select b < 16.
Proof.
  unfold row_select. change 15 with (Z.ones 4).
  rewrite Z.land_ones by lia. apply Z.mod_pos_bound. lia.
Qed.

Lemma u8_small (x : Z) : is_u8 x -> u8 x = x.
Proof. intros H. apply Z.mod_small. exact H. Qed.

(** The byte [0x7F | (x ^ 0x80)]: the low seven bits are set, the top bit
    is the inverse of the top bit of [x]. *)
Lemma tone_byte (x : Z) :
  is_u8 x ->
  Z.lor 0x7F (Z.lxor x 0x80) = if Z.testbit x 7 then 0x7F else 0xFF.
Proof.
  intros Hx.
  apply Z.eqb_eq.
  apply (byte_forall
           (fun x => Z.lor 0x7F (Z.lxor x 0x80) =?
                     (if Z.testbit x 7 then 0x7F else 0xFF))); [|exact Hx].
  vm_compute. reflexivity.
Qed.

(** ** Running a computation *)

Lemma bind_run {A B : Type} (m : M A) (f : A -> M B) (s : kim1_state) :
  (m ≫= f) s =
  match m s with
  | Some (x, s1, e1) =>
      match f x s1 with
      | Some (y, s2, e2) => Some (y, s2, e1 ++ e2)
      | None => None
      end
  | None => None
  end.
Proof. reflexivity. Qed.

Lemma bind_get_run {B : Type} (f : kim1_state -> M B) (s : kim1_state) :
  (get ≫= f) s = f s s.
Proof.
  rewrite bind_run. simpl. destruct (f s s) as [[[y s2] e2]|]; reflexivity.
Qed.

Lemma bind_run_some {A B : Type} (m : M A) (f : A -> M B) s x s1 e1 :
  m s = Some (x, s1, e1) ->
  (m ≫= f) s =
  match f x s1 with
  | Some (y, s2, e2) => Some (y, s2, e1 ++ e2)
  | None => None
  end.
Proof. intros H. rewrite bind_run, H. reflexivity. Qed.

Lemma array_get_run (a : list Z) (i v : Z) (s : kim1_state) :
  0 <= i -> a !! Z.to_nat i = Some v -> array_get a i s = Some (v, s, []).
Proof.
  intros Hi H. unfold array_get.
  destruct (decide (0 <= i)) as [_|Hn]; [|lia].
  rewrite H. reflexivity.
Qed.

Lemma array_set_run (a : list Z) (i v : Z) (s : kim1_state) :
  0 <= i < Z.of_nat (length a) ->
  array_set a i v s = Some (<[Z.to_nat i := v]> a, s, []).
Proof.
  intros H. unfold array_set.
  destruct (decide (0 <= i < Z.of_nat (length a))) as [_|Hn]; [|lia].
  reflexivity.
Qed.

Lemma set_led_time_twice (a b : list Z) (s : kim1_state) :
  set_led_time a (set_led_time b s) = set_led_time a s.
Proof. reflexivity. Qed.

Lemma set_led_time_same (s : kim1_state) : set_led_time (m_led_time s) s = s.
Proof. destruct s. reflexivity. Qed.

(** ** The callbacks, run *)

Lemma kim1_u2_read_a_run (s : kim1_state) (r : rows) :
  kim1_u2_read_a r s =
  Some (match row_select (m_u2_port_b s) with
        | 0 => u8 (ROW0 r)
        | 1 => u8 (ROW1 r)
        | 2 => u8 (ROW2 r)
        | _ => 0xFF
        end, s, []).
Proof. unfold kim1_u2_read_a. rewrite bind_get_run. reflexivity. Qed.

(** The display write that reaches a digit. *)
Lemma kim1_u2_write_a_hit (s : kim1_state) (data : Z) :
  length (m_led_time s) = 6%nat ->
  Z.testbit data 7 = true ->
  4 <= row_select (m_u2_port_b s) <= 9 ->
  kim1_u2_write_a data s =
  Some (tt,
        set_led_time
          (<[Z.to_nat (row_select (m_u2_port_b s) - 4) := 15]> (m_led_time s)) s,
        [set_digit_value (row_select (m_u2_port_b s) - 4) (Z.land data 0x7F)]).
Proof.
  intros Hlen Hb Hsel.
  unfold kim1_u2_write_a. rewrite bind_get_run.
  rewrite u8_small by (unfold is_u8; lia).
  rewrite nonzero_land_0x80, Hb.
  replace ((4 <=? row_select (m_u2_port_b s)) &&
           (row_select (m_u2_port_b s) <? 10)) with true
    by (symmetry; apply andb_true_iff;
        split; [apply Z.leb_le|apply Z.ltb_lt]; lia).
  unfold when. rewrite bind_run. cbn [emit].
  assert (Hi : 0 <= row_select (m_u2_port_b s) - 4
               < Z.of_nat (length (m_led_time s))) by lia.
  rewrite (bind_run_some _ _ _ _ _ _ (array_set_run _ _ 15 s Hi)).
  reflexivity.
Qed.

(** The display write that reaches none. *)
Lemma kim1_u2_write_a_miss (s : kim1_state) (data : Z) :
  Z.testbit data 7 = false \/ ~ 4 <= row_select (m_u2_port_b s) <= 9 ->
  kim1_u2_write_a data s = Some (tt, s, []).
Proof.
  pose proof (row_select_range (m_u2_port_b s)) as Hr.
  unfold kim1_u2_write_a. rewrite bind_get_run.
  rewrite u8_small by (unfold is_u8; lia).
  rewrite nonzero_land_0x80.
  intros [Hb|Hsel].
  - rewrite Hb. destruct (_ && _); reflexivity.
  - replace ((4 <=? row_select (m_u2_port_b s)) &&
             (row_select (m_u2_port_b s) <? 10)) with false; [reflexivity|].
    symmetry. apply andb_false_iff.
    destruct (Z.leb_spec 4 (row_select (m_u2_port_b s)));
      [right|left; reflexivity].
    apply Z.ltb_ge. lia.
Qed.

Lemma kim1_u2_read_b_run (s : kim1_state) (portb_out : Z) :
  kim1_u2_read_b portb_out s =
  Some (if Z.testbit portb_out 5 then 0xFF
        else u8 (Z.lor 0x7F (Z.lxor (m_311_output s) 0x80)), s, []).
Proof.
  unfold kim1_u2_read_b. rewrite bind_get_run, nonzero_land_0x20.
  destruct (Z.testbit portb_out 5); reflexivity.
Qed.

Lemma kim1_u2_write_b_run (s : kim1_state) (data : Z) :
  kim1_u2_write_b data s =
  Some (tt, set_u2_port_b data s,
        if Z.testbit data 5
        then [cass_output (if Z.testbit data 7
                           then dbl_minus_one else dbl_one)]
        else []).
Proof.
  unfold kim1_u2_write_b. rewrite bind_run. cbn [modify].
  rewrite nonzero_land_0x20, nonzero_land_0x80.
  destruct (Z.testbit data 5); reflexivity.
Qed.

(** A sample is not both [<= 0] and [> 0]. *)
Lemma SFleb_zero_not_pos (t : double) :
  SFleb t dbl_zero = true -> SFltb dbl_zero t = false.
Proof. destruct t as [[|]|[|]| |[|] m e]; cbn; congruence. Qed.

Lemma SFltb_zero_not_le (t : double) :
  SFltb dbl_zero t = true -> SFleb t dbl_zero = false.
Proof. destruct t as [[|]|[|]| |[|] m e]; cbn; congruence. Qed.

Lemma kim1_cassette_input_high (s : kim1_state) (tap_val : double) :
  SFltb dbl_zero tap_val = true ->
  kim1_cassette_input tap_val s =
  Some (tt, set_cassette_high_count (u32 (m_cassette_high_count s + 1)) s, []).
Proof.
  intros Hpos. unfold kim1_cassette_input.
  rewrite (SFltb_zero_not_le _ Hpos), Hpos. reflexivity.
Qed.

Lemma kim1_cassette_input_low (s : kim1_state) (tap_val : double) :
  SFleb tap_val dbl_zero = true ->
  kim1_cassette_input tap_val s =
  Some (tt,
        if decide (m_cassette_high_count s = 0) then s
        else set_cassette_high_count 0
               (set_311_output
                  (if decide (m_cassette_high_count s < 8) then 0x80 else 0) s),
        []).
Proof.
  intros Hle. unfold kim1_cassette_input.
  rewrite Hle, (SFleb_zero_not_pos _ Hle).
  rewrite bind_run. unfold when at 1. rewrite bind_get_run.
  unfold nonzero. case_decide as Hc.
  - rewrite Hc. reflexivity.
  - replace (m_cassette_high_count s =? 0) with false
      by (symmetry; apply Z.eqb_neq; exact Hc).
    cbn. destruct (Z.ltb_spec (m_cassette_high_count s) 8);
      case_decide; try lia; reflexivity.
Qed.

(** A sample that compares neither way (a NaN) changes nothing. *)
Lemma kim1_cassette_input_nan (s : kim1_state) (tap_val : double) :
  SFleb tap_val dbl_zero = false ->
  SFltb dbl_zero tap_val = false ->
  kim1_cassette_input tap_val s = Some (tt, s, []).
Proof.
  intros Hle Hlt. unfold kim1_cassette_input. rewrite Hle, Hlt. reflexivity.
Qed.

(** The loop of the ticker, started at digit [length pre] with the counters
    [post] still to visit. *)
Lemma update_led_loop (post pre : list Z) (s : kim1_state) :
  m_led_time s = pre ++ post ->
  for_loop (length post) (Z.of_nat (length pre)) update_led s =
  Some (tt, set_led_time (pre ++ (tick_age <$> post)) s,
        blanks (Z.of_nat (length pre)) post).
Proof.
  revert pre s. induction post as [|t post IH]; intros pre s Hs.
  - cbn. rewrite app_nil_r in *. rewrite <- Hs, set_led_time_same. reflexivity.
  - cbn [for_loop length blanks fmap list_fmap].
    assert (Hi : 0 <= Z.of_nat (length pre)) by lia.
    assert (Ht : m_led_time s !! Z.to_nat (Z.of_nat (length pre)) = Some t).
    { rewrite Hs, Nat2Z.id. apply list_lookup_middle. reflexivity. }
    assert (Hnext : Z.of_nat (length pre) + 1 = Z.of_nat (length (pre ++ [t]))).
    { rewrite length_app. cbn. lia. }
    rewrite bind_run. unfold update_led at 1. rewrite bind_get_run.
    rewrite (bind_run_some _ _ _ _ _ _ (array_get_run _ _ t s Hi Ht)).
    unfold tick_age. destruct (nonzero t) eqn:Hnz.
    + assert (Hb : 0 <= Z.of_nat (length pre) < Z.of_nat (length (m_led_time s))).
      { rewrite Hs, length_app. cbn. lia. }
      rewrite (bind_run_some _ _ _ _ _ _ (array_set_run _ _ (u8 (t - 1)) s Hb)).
      cbn [modify app].
      assert (Hs1 : m_led_time
                      (set_led_time
                         (<[Z.to_nat (Z.of_nat (length pre)) := u8 (t - 1)]>
                            (m_led_time s)) s) =
                    (pre ++ [u8 (t - 1)]) ++ post).
      { cbn [set_led_time m_led_time]. rewrite Hs, Nat2Z.id.
        rewrite insert_app_r_alt by lia. rewrite Nat.sub_diag.
        cbn. rewrite <- app_assoc. reflexivity. }
      replace (Z.of_nat (length pre) + 1)
        with (Z.of_nat (length (pre ++ [u8 (t - 1)])))
        by (rewrite length_app; cbn; lia).
      rewrite (IH _ _ Hs1), set_led_time_twice, <- app_assoc.
      reflexivity.
    + cbn [emit app].
      assert (Hs1 : m_led_time s = (pre ++ [t]) ++ post).
      { rewrite Hs, <- app_assoc. reflexivity. }
      rewrite Hnext, (IH _ _ Hs1), <- app_assoc. reflexivity.
Qed.

(** One invocation of the ticker: every counter goes through [tick_age] and
    the digits whose counter was zero are blanked. *)
Lemma kim1_update_leds_run (s : kim1_state) :
  length (m_led_time s) = 6%nat ->
  kim1_update_leds s =
  Some (tt, set_led_time (tick_age <$> m_led_time s) s,
        blanks 0 (m_led_time s)).
Proof.
  intros Hlen. unfold kim1_update_leds. rewrite <- Hlen.
  apply (update_led_loop (m_led_time s) [] s). reflexivity.
Qed.

Lemma nonzero_false (t : Z) : nonzero t = false <-> t = 0.
Proof.
  unfold nonzero. rewrite negb_false_iff. apply Z.eqb_eq.
Qed.

(** The blank commands are those of the digits whose counter is zero. *)
Lemma elem_of_blanks (l : list Z) (i j v : Z) :
  set_digit_value j v ∈ blanks i l <->
  v = 0 /\ i <= j /\ l !! Z.to_nat (j - i) = Some 0.
Proof.
  revert i. induction l as [|t l IH]; intros i; cbn [blanks].
  - split; [intros H; inversion H|intros (_ & _ & H); discriminate H].
  - rewrite elem_of_app, IH. split.
    + intros [Hhd|(Hv & Hij & Hl)].
      * destruct (nonzero t) eqn:Hnz; [inversion Hhd|].
        apply list_elem_of_singleton in Hhd. injection Hhd as -> ->.
        apply nonzero_false in Hnz. subst t.
        rewrite Z.sub_diag. repeat split; lia.
      * repeat split; [exact Hv|lia|].
        replace (Z.to_nat (j - i)) with (S (Z.to_nat (j - (i + 1)))) by lia.
        exact Hl.
    + intros (Hv & Hij & Hl).
      destruct (Z.eq_dec i j) as [->|Hne].
      * left. rewrite Z.sub_diag in Hl. cbn in Hl. injection Hl as ->.
        subst v. cbn. apply list_elem_of_singleton. reflexivity.
      * right. repeat split; [exact Hv|lia|].
        replace (Z.to_nat (j - i)) with (S (Z.to_nat (j - (i + 1)))) in Hl by lia.
        exact Hl.
Qed.

Lemma tick_age_pos (t : Z) : 0 < t < 256 -> tick_age t = t - 1.
Proof.
  intros Ht. unfold tick_age, nonzero.
  replace (t =? 0) with false by (symmetry; apply Z.eqb_neq; lia).
  cbn. apply Z.mod_small. lia.
Qed.

Lemma tick_age_zero : tick_age 0 = 0.
Proof. reflexivity. Qed.

Lemma tick_age_range (t : Z) : 0 <= t <= 15 -> 0 <= tick_age t <= 15.
Proof.
  intros Ht. destruct (Z.eq_dec t 0) as [->|Hnz].
  - rewrite tick_age_zero. lia.
  - rewrite tick_age_pos by lia. lia.
Qed.

Lemma machine_reset_run (s : kim1_state) :
  length (m_led_time s) = 6%nat ->
  machine_reset s =
  Some (tt, mk_kim1_state (m_videoram s) (m_u2_port_b s) 0 0
              [0; 0; 0; 0; 0; 0] (m_flipscreen s) (m_madsel_lastcycles s), []).
Proof.
  intros Hlen. destruct s as [v b o c l f m]. cbn in Hlen.
  do 6 (destruct l as [|? l]; [discriminate|]).
  destruct l; [|discriminate].
  reflexivity.
Qed.

Lemma missile_w_run (s : kim1_state) (offset data : Z) :
  0 <= offset < Z.of_nat (length (m_videoram s)) ->
  missile_w offset data s =
  Some (tt, set_videoram (<[Z.to_nat offset := data]> (m_videoram s)) s, []).
Proof.
  intros Hoff. unfold missile_w. rewrite bind_get_run.
  rewrite (bind_run_some _ _ _ _ _ _ (array_set_run _ _ data s Hoff)).
  reflexivity.
Qed.

Lemma missile_r_run (s : kim1_state) (offset v : Z) :
  0 <= offset ->
  m_videoram s !! Z.to_nat offset = Some v ->
  missile_r offset s = Some (v, s, []).
Proof.
  intros Hoff Hv. unfold missile_r. rewrite bind_get_run.
  rewrite (bind_run_some _ _ _ _ _ _ (array_get_run _ _ v s Hoff Hv)).
  reflexivity.
Qed.

(** Outside the video buffer the accesses have no defined result. *)
Lemma missile_w_out_of_bounds (s : kim1_state) (offset data : Z) :
  ~ 0 <= offset < Z.of_nat (length (m_videoram s)) ->
  missile_w offset data s = None.
Proof.
  intros Hoff. unfold missile_w. rewrite bind_get_run, bind_run.
  unfold array_set. rewrite decide_False by exact Hoff. reflexivity.
Qed.

Lemma missile_r_out_of_bounds (s : kim1_state) (offset : Z) :
  ~ 0 <= offset < Z.of_nat (length (m_videoram s)) ->
  missile_r offset s = None.
Proof.
  intros Hoff. unfold missile_r. rewrite bind_get_run, bind_run.
  unfold array_get. case_decide as Hlo; [|reflexivity].
  rewrite lookup_ge_None_2 by lia. reflexivity.
Qed.

(** ** The operations, case by case *)

Ltac step_some H := unfold state_of; rewrite H; reflexivity.

Lemma step_cases (o : op) (s : kim1_state) :
  length (m_led_time s) = 6%nat -> step_spec o s (step o s).
Proof.
  intros Hlen. destruct o; cbn [step step_spec].
  - step_some (kim1_u2_read_a_run s r).
  - pose proof (row_select_range (m_u2_port_b s)) as Hr.
    destruct (Z.testbit data 7) eqn:Hb;
      [|left; step_some (kim1_u2_write_a_miss s data (or_introl Hb))].
    destruct (decide (4 <= row_select (m_u2_port_b s) <= 9)) as [Hsel|Hsel];
      [|left; step_some (kim1_u2_write_a_miss s data (or_intror Hsel))].
    right. eexists. step_some (kim1_u2_write_a_hit s data Hlen Hb Hsel).
  - step_some (kim1_u2_read_b_run s portb_out).
  - step_some (kim1_u2_write_b_run s data).
  - destruct (SFltb dbl_zero tap_val) eqn:Hlt;
      [right; left; step_some (kim1_cassette_input_high s tap_val Hlt)|].
    destruct (SFleb tap_val dbl_zero) eqn:Hle;
      [|left; step_some (kim1_cassette_input_nan s tap_val Hle Hlt)].
    unfold state_of. rewrite (kim1_cassette_input_low s tap_val Hle).
    case_decide; [left; reflexivity|].
    right; right. eexists. split; [|reflexivity].
    case_decide; auto.
  - step_some (kim1_update_leds_run s Hlen).
  - reflexivity.
  - step_some (machine_reset_run s Hlen).
  - case_decide as Hoff.
    + step_some (missile_w_run s offset data Hoff).
    + step_some (missile_w_out_of_bounds s offset data Hoff).
  - case_decide as Hoff.
    + destruct (lookup_lt_is_Some_2 (m_videoram s) (Z.to_nat offset))
        as [v Hv]; [lia|].
      step_some (missile_r_run s offset v (proj1 Hoff) Hv).
    + step_some (missile_r_out_of_bounds s offset Hoff).
  - reflexivity.
  - reflexivity.
Qed.

(** Every operation has a next state, when the offset of a video-window
    access is inside the video buffer. *)
Lemma step_defined (o : op) (s : kim1_state) :
  length (m_led_time s) = 6%nat ->
  op_in_bounds o s ->
  exists s', step o s = Some s'.
Proof.
  intros Hlen Hb. pose proof (step_cases o s Hlen) as Hc.
  destruct o; cbn [step_spec op_in_bounds] in Hc, Hb;
    try rewrite decide_True in Hc by exact Hb;
    try (eexists; exact Hc).
  - destruct Hc as [Hc|[i Hc]]; eexists; exact Hc.
  - destruct Hc as [Hc|[Hc|(v & _ & Hc)]]; eexists; exact Hc.
Qed.

Lemma step_effect (o : op) (s s' : kim1_state) :
  length (m_led_time s) = 6%nat ->
  step o s = Some s' ->
  led_time_effect o s s' /\ tone_effect o s s'.
Proof.
  intros Hlen Hstep. pose proof (step_cases o s Hlen) as Hc.
  rewrite Hstep in Hc.
  destruct o; cbn [step_spec led_time_effect tone_effect] in Hc |- *;
    try (injection Hc as ->; split; reflexivity).
  - destruct Hc as [Hc|[i Hc]]; injection Hc as ->.
    + split; [left|]; reflexivity.
    + split; [right; exists i|]; reflexivity.
  - destruct Hc as [Hc|[Hc|(v & Hv & Hc)]]; injection Hc as ->.
    + split; [|left]; reflexivity.
    + split; [|left]; reflexivity.
    + split; [reflexivity|]. cbn. destruct Hv as [-> | ->]; auto.
  - case_decide; [injection Hc as ->; split; reflexivity|discriminate Hc].
  - case_decide; [injection Hc as ->; split; reflexivity|discriminate Hc].
Qed.

(** The operations keep every member inside its C++ type. *)
Lemma tick_age_u8 (t : Z) : is_u8 t -> is_u8 (tick_age t).
Proof.
  intros Ht. unfold tick_age. destruct (nonzero t); [|exact Ht].
  apply Z.mod_pos_bound. lia.
Qed.

Lemma step_wf (o : op) (s s' : kim1_state) :
  wf_state s -> op_typed o -> step o s = Some s' -> wf_state s'.
Proof.
  intros Hwf Hty Hstep.
  pose proof (step_cases o s (wf_led_time_len s Hwf)) as Hc.
  rewrite Hstep in Hc.
  assert (H0 : is_u8 0) by (unfold is_u8; lia).
  destruct Hwf as [Hvl Hv Hb Ht Hn Hll Hl].
  destruct o; cbn [step_spec op_typed] in Hc, Hty;
    try (injection Hc as ->; constructor; assumption).
  - destruct Hc as [Hc|[i Hc]]; injection Hc as ->;
      constructor; cbn; try assumption.
    + rewrite length_insert. exact Hll.
    + apply Forall_insert; [exact Hl|unfold is_u8; lia].
  - destruct Hc as [Hc|[Hc|(v & Hv' & Hc)]]; injection Hc as ->;
      constructor; cbn; try assumption.
    + apply Z.mod_pos_bound. lia.
    + unfold is_u8. destruct Hv' as [-> | ->]; lia.
  - injection Hc as ->. constructor; cbn; try assumption.
    + rewrite length_fmap. exact Hll.
    + apply Forall_fmap. eapply Forall_impl; [exact Hl|].
      intros t. apply tick_age_u8.
  - injection Hc as ->. constructor; cbn; try assumption.
    + unfold is_u32. lia.
    + repeat constructor; lia.
  - case_decide; [|discriminate Hc]. injection Hc as ->.
    constructor; cbn; try assumption.
    + rewrite length_insert. exact Hvl.
    + apply Forall_insert; assumption.
  - case_decide; [|discriminate Hc]. injection Hc as ->.
    constructor; assumption.
Qed.

(** ** The invariants, step by step *)

Lemma led_time_inv_reset (s s' : kim1_state) :
  length (m_led_time s) = 6%nat ->
  state_of machine_reset s = Some s' ->
  led_time_inv s'.
Proof.
  intros Hlen Hr. unfold state_of in Hr.
  rewrite (machine_reset_run s Hlen) in Hr. injection Hr as <-.
  split; [reflexivity|]. cbn. repeat constructor; lia.
Qed.

Lemma led_time_inv_step (o : op) (s s' : kim1_state) :
  led_time_inv s -> step o s = Some s' -> led_time_inv s'.
Proof.
  intros [Hlen Hall] Hstep.
  destruct (step_effect o s s' Hlen Hstep) as [He _].
  assert (Hsame : m_led_time s' = m_led_time s -> led_time_inv s').
  { intros Heq. unfold led_time_inv. rewrite Heq. split; assumption. }
  destruct o; cbn [led_time_effect] in He; try (apply Hsame; exact He).
  - destruct He as [He|[i He]]; [apply Hsame; exact He|].
    unfold led_time_inv. rewrite He, length_insert.
    split; [exact Hlen|]. apply Forall_insert; [exact Hall|lia].
  - unfold led_time_inv. rewrite He, length_fmap.
    split; [exact Hlen|].
    apply Forall_fmap. eapply Forall_impl; [exact Hall|].
    intros t Ht. apply tick_age_range. exact Ht.
  - unfold led_time_inv. rewrite He.
    split; [reflexivity|repeat constructor; lia].
Qed.

Lemma reachable_led_time_inv (s : kim1_state) : reachable s -> led_time_inv s.
Proof.
  induction 1 as [s s' Hlen Hr|o s s' _ IH Hstep].
  - exact (led_time_inv_reset s s' Hlen Hr).
  - exact (led_time_inv_step o s s' IH Hstep).
Qed.

Lemma tone_inv_step (o : op) (s s' : kim1_state) :
  length (m_led_time s) = 6%nat ->
  tone_inv s -> step o s = Some s' -> tone_inv s'.
Proof.
  intros Hlen Hinv Hstep.
  destruct (step_effect o s s' Hlen Hstep) as [_ He].
  unfold tone_inv in *.
  destruct o; cbn [tone_effect] in He; try (rewrite He; exact Hinv).
  - destruct He as [He|[He|He]]; rewrite He; auto.
  - rewrite He. auto.
Qed.

Lemma reachable_tone_inv (s : kim1_state) : reachable s -> tone_inv s.
Proof.
  induction 1 as [s s' Hlen Hr|o s s' Hreach IH Hstep].
  - unfold state_of in Hr. rewrite (machine_reset_run s Hlen) in Hr.
    injection Hr as <-. left. reflexivity.
  - apply (tone_inv_step o s s'); [|exact IH|exact Hstep].
    exact (proj1 (reachable_led_time_inv s Hreach)).
Qed.

Lemma kim1_u2_read_b_two_valued (s : kim1_state) (portb_out : Z) :
  is_u8 (m_311_output s) ->
  kim1_u2_read_b portb_out s = Some (0x7F, s, []) \/
  kim1_u2_read_b portb_out s = Some (0xFF, s, []).
Proof.
  intros Hu. rewrite kim1_u2_read_b_run.
  destruct (Z.testbit portb_out 5); [right; reflexivity|].
  rewrite (tone_byte _ Hu).
  destruct (Z.testbit (m_311_output s) 7); [left|right]; reflexivity.
Qed.

(** ** A digit that is written once and then left alone *)

Lemma step_led_time_length (o : op) (s s' : kim1_state) :
  length (m_led_time s) = 6%nat ->
  step o s = Some s' ->
  length (m_led_time s') = 6%nat.
Proof.
  intros Hlen Hstep.
  destruct (step_effect o s s' Hlen Hstep) as [He _].
  destruct o; cbn [led_time_effect] in He;
    try (rewrite He; exact Hlen).
  - destruct He as [He|[i He]]; rewrite He, ?length_insert; exact Hlen.
  - rewrite He, length_fmap. exact Hlen.
  - rewrite He. reflexivity.
Qed.

(** One tick seen from one digit: its counter goes through [tick_age], and
    the digit is blanked exactly when the counter was zero. *)
Lemma kim1_update_leds_digit (s : kim1_state) (d : nat) (a : Z) :
  length (m_led_time s) = 6%nat ->
  m_led_time s !! d = Some a ->
  exists s' evs,
    kim1_update_leds s = Some (tt, s', evs) /\
    m_led_time s' !! d = Some (tick_age a) /\
    (a <> 0 -> forall v, set_digit_value (Z.of_nat d) v ∉ evs) /\
    (a = 0 -> set_digit_value (Z.of_nat d) 0 ∈ evs).
Proof.
  intros Hlen Hd. do 2 eexists.
  split; [exact (kim1_update_leds_run s Hlen)|].
  cbn [set_led_time m_led_time]. split; [|split].
  - rewrite list_lookup_fmap, Hd. reflexivity.
  - intros Ha v Hin. apply elem_of_blanks in Hin as (_ & _ & Hz).
    rewrite Z.sub_0_r, Nat2Z.id, Hd in Hz. congruence.
  - intros ->. apply elem_of_blanks. rewrite Z.sub_0_r, Nat2Z.id.
    repeat split; [lia|exact Hd].
Qed.

Section FreshDigit.
Variable s0 : kim1_state.
Variable d : nat.
Hypothesis s0_len : length (m_led_time s0) = 6%nat.
Hypothesis s0_age : m_led_time s0 !! d = Some 15.

(** After [k <= 15] ticks, whatever else happened between them, the counter
    is at [15 - k]. *)
Lemma quiet_run_age (k : nat) (s1 : kim1_state) :
  quiet_run (Z.of_nat d) s0 k s1 ->
  (k <= 15)%nat ->
  length (m_led_time s1) = 6%nat /\
  m_led_time s1 !! d = Some (15 - Z.of_nat k).
Proof.
  induction 1 as [|k s1 s2 _ IH Hstep|k o s1 s2 _ IH Hnt Hnr Hnw Hstep];
    intros Hk.
  - split; assumption.
  - destruct IH as [Hlen Hage]; [lia|].
    split; [exact (step_led_time_length _ _ _ Hlen Hstep)|].
    destruct (step_effect _ _ _ Hlen Hstep) as [He _].
    cbn [led_time_effect] in He.
    rewrite He, list_lookup_fmap, Hage. cbn.
    rewrite tick_age_pos by lia. f_equal. lia.
  - destruct (IH Hk) as [Hlen Hage].
    split; [exact (step_led_time_length _ _ _ Hlen Hstep)|].
    destruct (step_effect _ _ _ Hlen Hstep) as [He _].
    destruct o; cbn [led_time_effect] in He;
      try (rewrite He; exact Hage); try congruence.
    cbn [step writes_digit] in Hstep, Hnw. unfold state_of in Hstep.
    pose proof (row_select_range (m_u2_port_b s1)) as Hr.
    destruct (Z.testbit data 7) eqn:Hb;
      [|rewrite (kim1_u2_write_a_miss s1 data (or_introl Hb)) in Hstep;
        injection Hstep as <-; exact Hage].
    destruct (decide (4 <= row_select (m_u2_port_b s1) <= 9)) as [Hsel|Hsel];
      [|rewrite (kim1_u2_write_a_miss s1 data (or_intror Hsel)) in Hstep;
        injection Hstep as <-; exact Hage].
    rewrite (kim1_u2_write_a_hit s1 data Hlen Hb Hsel) in Hstep.
    injection Hstep as <-. cbn [set_led_time m_led_time].
    rewrite list_lookup_insert_ne; [exact Hage|].
    intros Heq. apply Hnw. split; [reflexivity|]. lia.
Qed.

(** Ticks with nothing between them are such a run, and there is one of
    every length. *)
Lemma after_ticks_quiet (k : nat) :
  exists sk,
    after_ticks k s0 = Some sk /\ quiet_run (Z.of_nat d) s0 k sk /\
    length (m_led_time sk) = 6%nat.
Proof.
  induction k as [|k (sk & Hrun & Hq & Hlen)].
  - exists s0. repeat split; [constructor|exact s0_len].
  - destruct (step_defined op_update_leds sk Hlen I) as [s' Hs'].
    exists s'. cbn [after_ticks]. rewrite Hrun. cbn [mbind option_bind].
    split; [exact Hs'|]. split.
    + exact (quiet_tick _ s0 k sk s' Hq Hs').
    + exact (step_led_time_length _ _ _ Hlen Hs').
Qed.
End FreshDigit.

(** ** Reachable sample states *)

Lemma st_after_reset_reachable : reachable st_after_reset.
Proof. apply (reachable_reset st_port_b_set); reflexivity. Defined.

Lemma st_two_ticks_reachable : reachable st_two_ticks.
Proof.
  apply (reachable_step op_update_leds
           (mk_kim1_state [] 0x0E 0 0 [0; 0; 0; 14; 0; 0] 0 0));
    [|reflexivity].
  apply (reachable_step op_update_leds
           (mk_kim1_state [] 0x0E 0 0 [0; 0; 0; 15; 0; 0] 0 0));
    [|reflexivity].
  apply (reachable_step (op_u2_write_a 0xE6) st_after_reset);
    [|reflexivity].
  exact st_after_reset_reachable.
Defined.

Lemma st_short_run_reachable : reachable st_short_run.
Proof.
  apply (reachable_step (op_cassette_input dbl_minus_one)
           (mk_kim1_state [] 0x0E 0 5 [0; 0; 0; 0; 0; 0] 0 0));
    [|reflexivity].
  apply (reachable_step (op_cassette_input dbl_one)
           (mk_kim1_state [] 0x0E 0 4 [0; 0; 0; 0; 0; 0] 0 0));
    [|reflexivity].
  apply (reachable_step (op_cassette_input dbl_one)
           (mk_kim1_state [] 0x0E 0 3 [0; 0; 0; 0; 0; 0] 0 0));
    [|reflexivity].
  apply (reachable_step (op_cassette_input dbl_one)
           (mk_kim1_state [] 0x0E 0 2 [0; 0; 0; 0; 0; 0] 0 0));
    [|reflexivity].
  apply (reachable_step (op_cassette_input dbl_one)
           (mk_kim1_state [] 0x0E 0 1 [0; 0; 0; 0; 0; 0] 0 0));
    [|reflexivity].
  apply (reachable_step (op_cassette_input dbl_one) st_after_reset);
    [|reflexivity].
  exact st_after_reset_reachable.
Defined.

(** The first testable property of the cassette decoder: five samples
    above zero and one not above give the tone output 0x80, ten and one
    give 0. *)
Example feed_5_high_then_low :
  m_311_output <$>
    state_of (feed (replicate 5 dbl_one ++ [dbl_zero])) st_after_reset
  = Some 0x80.
Proof. reflexivity. Qed.

Example feed_10_high_then_low :
  m_311_output <$>
    state_of (feed (replicate 10 dbl_one ++ [dbl_minus_one])) st_tone_high
  = Some 0.
Proof. reflexivity. Qed.

(** ** The properties of the specification *)

(** C1. After [machine_reset] the tone output, the run-length counter and
    the six digit ages are zero, for every state before it; the port-B
    shadow is not assigned and keeps the value it had. *)
Theorem machine_reset_spec (s : kim1_state) :
  length (m_led_time s) = 6%nat ->
  exists s',
    machine_reset s = Some (tt, s', []) /\
    m_311_output s' = 0 /\
    m_cassette_high_count s' = 0 /\
    m_led_time s' = [0; 0; 0; 0; 0; 0] /\
    (forall i, (i < 6)%nat -> m_led_time s' !! i = Some 0) /\
    m_u2_port_b s' = m_u2_port_b s.
Proof.
  intros Hlen. eexists. split; [exact (machine_reset_run s Hlen)|].
  cbn. repeat split.
  intros i Hi. do 6 (destruct i as [|i]; [reflexivity|]). lia.
Qed.

Lemma machine_reset_spec_witness :
  length (m_led_time st_port_b_set) = 6%nat /\
  exists s',
    machine_reset st_port_b_set = Some (tt, s', []) /\
    m_311_output s' = 0 /\
    m_cassette_high_count s' = 0 /\
    m_led_time s' = [0; 0; 0; 0; 0; 0] /\
    (forall i, (i < 6)%nat -> m_led_time s' !! i = Some 0) /\
    m_u2_port_b s' = 0x0E.
Proof.
  split; [reflexivity|].
  exact (machine_reset_spec st_port_b_set eq_refl).
Defined.

(** C1, as the specification states it, fails: a reset of a state whose
    port-B shadow is 0x0E leaves 0x0E in it, so the four members are not
    all zero afterwards. *)
Lemma machine_reset_port_b_counterexample :
  machine_reset st_port_b_set = Some (tt, st_after_reset, []) /\
  ~ (m_u2_port_b st_after_reset = 0 /\
     m_311_output st_after_reset = 0 /\
     m_cassette_high_count st_after_reset = 0 /\
     forall i, (i < 6)%nat -> m_led_time st_after_reset !! i = Some 0).
Proof.
  split; [reflexivity|].
  intros [H _]. discriminate H.
Qed.

(** C2. From the state a display write has just left, with the age counter
    of its digit at 15, and with no display write to that digit (and no
    reset) between the invocations of the ticker: each of the first 15
    invocations decrements the counter and issues no command for that
    digit, the counter is 0 after the 15th, and the 16th invocation issues
    the blank command (value 0) for it. *)
Theorem led_blank_on_16th_tick (s : kim1_state) (data : Z) :
  length (m_led_time s) = 6%nat ->
  let rowSelect := Z.land (Z.shiftr (m_u2_port_b s) 1) 0x0F in
  let d := rowSelect - 4 in
  Z.testbit data 7 = true ->
  4 <= rowSelect <= 9 ->
  exists s0,
    state_of (kim1_u2_write_a data) s = Some s0 /\
    m_led_time s0 !! Z.to_nat d = Some 15 /\
    (forall k s1,
       quiet_run d s0 k s1 -> (k <= 15)%nat ->
       m_led_time s1 !! Z.to_nat d = Some (15 - Z.of_nat k) /\
       exists s2 evs,
         kim1_update_leds s1 = Some (tt, s2, evs) /\
         if decide (k < 15)%nat
         then m_led_time s2 !! Z.to_nat d = Some (15 - Z.of_nat (S k)) /\
              forall v, set_digit_value d v ∉ evs
         else set_digit_value d 0 ∈ evs /\
              m_led_time s2 !! Z.to_nat d = Some 0) /\
    (forall k, exists sk,
       after_ticks k s0 = Some sk /\ quiet_run d s0 k sk).
Proof.
  intros Hlen rowSelect d Hbit Hsel.
  pose proof (kim1_u2_write_a_hit s data Hlen Hbit Hsel) as Hw.
  change (row_select (m_u2_port_b s) - 4) with d in Hw.
  set (s0 := set_led_time (<[Z.to_nat d := 15]> (m_led_time s)) s) in *.
  assert (Hd : Z.of_nat (Z.to_nat d) = d) by (unfold d; lia).
  assert (Hlen0 : length (m_led_time s0) = 6%nat).
  { unfold s0. cbn [set_led_time m_led_time]. rewrite length_insert. exact Hlen. }
  assert (Hage : m_led_time s0 !! Z.to_nat d = Some 15).
  { unfold s0. cbn [set_led_time m_led_time].
    apply list_lookup_insert_eq. unfold d. lia. }
  exists s0. split; [unfold state_of; rewrite Hw; reflexivity|].
  split; [exact Hage|]. split.
  - intros k s1 Hq Hk. rewrite <- Hd in Hq.
    destruct (quiet_run_age s0 (Z.to_nat d) Hlen0 Hage k s1 Hq Hk)
      as [Hlen1 Hage1].
    split; [exact Hage1|].
    destruct (kim1_update_leds_digit s1 (Z.to_nat d) _ Hlen1 Hage1)
      as (s2 & evs & Hrun & Hage2 & Hpos & Hzero).
    rewrite Hd in Hpos, Hzero.
    exists s2, evs. split; [exact Hrun|].
    case_decide as Hlt.
    + split; [|apply Hpos; lia].
      rewrite Hage2, tick_age_pos by lia. f_equal. lia.
    + assert (Hk15 : 15 - Z.of_nat k = 0) by lia.
      rewrite Hk15 in Hage2, Hzero.
      split; [apply Hzero; reflexivity|exact Hage2].
  - intros k.
    destruct (after_ticks_quiet s0 (Z.to_nat d) Hlen0 k) as (sk & Hrun & Hq & _).
    rewrite Hd in Hq. exists sk. split; assumption.
Qed.

Lemma led_blank_on_16th_tick_witness :
  (length (m_led_time st_digit3) = 6%nat /\
   Z.testbit 0xE6 7 = true /\
   4 <= Z.land (Z.shiftr (m_u2_port_b st_digit3) 1) 0x0F <= 9) /\
  exists s0,
    state_of (kim1_u2_write_a 0xE6) st_digit3 = Some s0 /\
    m_led_time s0 !! 3%nat = Some 15 /\
    exists s15,
      after_ticks 15 s0 = Some s15 /\
      m_led_time s15 !! 3%nat = Some 0 /\
      exists s16 evs,
        kim1_update_leds s15 = Some (tt, s16, evs) /\
        set_digit_value 3 0 ∈ evs.
Proof.
  assert (H : length (m_led_time st_digit3) = 6%nat /\
              Z.testbit 0xE6 7 = true /\
              4 <= Z.land (Z.shiftr (m_u2_port_b st_digit3) 1) 0x0F <= 9)
    by (split; [reflexivity|split; [reflexivity|vm_compute; split; discriminate]]).
  split; [exact H|].
  destruct H as (H1 & H2 & H3).
  destruct (led_blank_on_16th_tick st_digit3 0xE6 H1 H2 H3)
    as (s0 & Hw & Hage & Hquiet & Hticks).
  destruct (Hticks 15%nat) as (s15 & Hrun & Hq).
  destruct (Hquiet 15%nat s15 Hq (le_n 15))
    as (Hage15 & s16 & evs & Htick & Hin & _).
  exists s0. split; [exact Hw|]. split; [exact Hage|].
  exists s15. split; [exact Hrun|]. split; [exact Hage15|].
  exists s16, evs. split; [exact Htick|exact Hin].
Defined.

(** C3. One tick of the cassette sampler.  On a sample [> 0] the run-length
    counter is incremented (as a [uint32_t]) and the tone output stays.  On a
    sample [<= 0] with a nonzero counter the tone output becomes 0x80 when
    the run length is below 8 and 0 otherwise, and the counter is reset to 0.
    On a sample [<= 0] with a zero counter nothing changes. *)
Theorem kim1_cassette_input_spec (s : kim1_state) (tap_val : double) :
  is_u32 (m_cassette_high_count s) ->
  let c := m_cassette_high_count s in
  (SFltb dbl_zero tap_val = true ->
   exists s',
     kim1_cassette_input tap_val s = Some (tt, s', []) /\
     s' = set_cassette_high_count ((c + 1) mod 2 ^ 32) s /\
     (c + 1 < 2 ^ 32 -> m_cassette_high_count s' = c + 1) /\
     m_311_output s' = m_311_output s) /\
  (SFleb tap_val dbl_zero = true -> c <> 0 ->
   exists s',
     kim1_cassette_input tap_val s = Some (tt, s', []) /\
     s' = set_cassette_high_count 0
            (set_311_output (if decide (c < 8) then 0x80 else 0) s) /\
     m_311_output s' = (if decide (c < 8) then 0x80 else 0) /\
     m_cassette_high_count s' = 0) /\
  (SFleb tap_val dbl_zero = true -> c = 0 ->
   kim1_cassette_input tap_val s = Some (tt, s, [])).
Proof.
  intros Hc c. split; [|split].
  - intros Hpos. eexists.
    split; [exact (kim1_cassette_input_high s tap_val Hpos)|].
    split; [reflexivity|]. split; [|reflexivity].
    intros Hlt. cbn. apply Z.mod_small. unfold is_u32 in Hc. fold c in Hc. lia.
  - intros Hle Hnz. eexists. split; [|split; [reflexivity|split; reflexivity]].
    rewrite (kim1_cassette_input_low s tap_val Hle).
    fold c. rewrite decide_False by exact Hnz. reflexivity.
  - intros Hle Hz. rewrite (kim1_cassette_input_low s tap_val Hle).
    fold c. rewrite decide_True by exact Hz. reflexivity.
Qed.

Lemma kim1_cassette_input_spec_witness :
  is_u32 (m_cassette_high_count st_run5) /\
  exists s',
    kim1_cassette_input dbl_minus_one st_run5 = Some (tt, s', []) /\
    m_311_output s' = 0x80 /\ m_cassette_high_count s' = 0.
Proof.
  assert (H : is_u32 (m_cassette_high_count st_run5))
    by (unfold is_u32; simpl; lia).
  split; [exact H|].
  destruct (kim1_cassette_input_spec st_run5 dbl_minus_one H) as (_ & Hlow & _).
  destruct Hlow as (s' & Hrun & _ & Hout & Hcnt);
    [reflexivity|simpl; lia|].
  exists s'. split; [exact Hrun|]. split; [exact Hout|exact Hcnt].
Defined.

(** C4. If the port-B output value echoed by the adapter has bit 5 set the
    port-B read returns 0xFF; otherwise it returns
    [0x7F | (toneOutput XOR 0x80)], which is 0xFF for [toneOutput = 0] and
    0x7F for [toneOutput = 0x80].  The state is left as it was. *)
Theorem kim1_u2_read_b_spec (s : kim1_state) (portb_out : Z) :
  is_u8 (m_311_output s) ->
  (Z.testbit portb_out 5 = true ->
   kim1_u2_read_b portb_out s = Some (0xFF, s, [])) /\
  (Z.testbit portb_out 5 = false ->
   kim1_u2_read_b portb_out s =
     Some (Z.lor 0x7F (Z.lxor (m_311_output s) 0x80), s, []) /\
   (m_311_output s = 0 -> kim1_u2_read_b portb_out s = Some (0xFF, s, [])) /\
   (m_311_output s = 0x80 -> kim1_u2_read_b portb_out s = Some (0x7F, s, []))).
Proof.
  intros Ht. rewrite kim1_u2_read_b_run.
  split; intros Hb; rewrite Hb; [reflexivity|].
  assert (Hu : is_u8 (Z.lor 0x7F (Z.lxor (m_311_output s) 0x80))).
  { rewrite tone_byte by exact Ht. unfold is_u8.
    destruct (Z.testbit (m_311_output s) 7); lia. }
  rewrite (u8_small _ Hu).
  split; [reflexivity|].
  split; intros ->; reflexivity.
Qed.

Lemma kim1_u2_read_b_spec_witness :
  is_u8 (m_311_output st_tone_high) /\
  kim1_u2_read_b 0x1F st_tone_high = Some (0x7F, st_tone_high, []).
Proof.
  assert (H : is_u8 (m_311_output st_tone_high)) by (unfold is_u8; simpl; lia).
  split; [exact H|].
  apply (kim1_u2_read_b_spec st_tone_high 0x1F H); reflexivity.
Defined.

(** C5. For every port-B shadow, the port-A read computes
    [rowSelect = (portB >> 1) & 0x0F], returns the 8-bit input of row
    [rowSelect] when that is 0, 1 or 2 and 0xFF otherwise; it leaves the
    state as it was and calls no device. *)
Theorem kim1_u2_read_a_spec (s : kim1_state) (r : rows) :
  is_u8 (ROW0 r) -> is_u8 (ROW1 r) -> is_u8 (ROW2 r) ->
  let rowSelect := Z.land (Z.shiftr (m_u2_port_b s) 1) 0x0F in
  kim1_u2_read_a r s =
  Some (if decide (rowSelect = 0) then ROW0 r
        else if decide (rowSelect = 1) then ROW1 r
        else if decide (rowSelect = 2) then ROW2 r
        else 0xFF, s, []).
Proof.
  intros H0 H1 H2 rowSelect.
  rewrite kim1_u2_read_a_run.
  change (row_select (m_u2_port_b s)) with rowSelect.
  rewrite !u8_small by assumption.
  repeat case_decide;
    try match goal with H : rowSelect = _ |- _ => rewrite H; reflexivity end.
  destruct rowSelect as [|[[?|?|]|[?|?|]|]|?]; try reflexivity; lia.
Qed.

Lemma kim1_u2_read_a_spec_witness :
  (is_u8 0x7F /\ is_u8 0xFF /\ is_u8 0xBF) /\
  kim1_u2_read_a (mk_rows 0x7F 0xFF 0xBF) st_row2 = Some (0xBF, st_row2, []).
Proof.
  assert (H : is_u8 0x7F /\ is_u8 0xFF /\ is_u8 0xBF) by (unfold is_u8; lia).
  split; [exact H|].
  destruct H as (H0 & H1 & H2).
  exact (kim1_u2_read_a_spec st_row2 (mk_rows 0x7F 0xFF 0xBF) H0 H1 H2).
Defined.

(** C6. A port-A write with bit 7 of [data] set while
    [rowSelect = (portB >> 1) & 0x0F] is in [4,9] sends [data & 0x7F] to
    digit [rowSelect - 4] of the display sink and sets the age counter of
    that digit to 15 (the other counters keep their values); a write with
    bit 7 clear, or with [rowSelect] outside [4,9], changes nothing and
    calls no device. *)
Theorem kim1_u2_write_a_spec (s : kim1_state) (data : Z) :
  length (m_led_time s) = 6%nat ->
  let rowSelect := Z.land (Z.shiftr (m_u2_port_b s) 1) 0x0F in
  (Z.testbit data 7 = true -> 4 <= rowSelect <= 9 ->
   exists s',
     kim1_u2_write_a data s =
       Some (tt, s', [set_digit_value (rowSelect - 4) (Z.land data 0x7F)]) /\
     s' = set_led_time (<[Z.to_nat (rowSelect - 4) := 15]> (m_led_time s)) s /\
     m_led_time s' !! Z.to_nat (rowSelect - 4) = Some 15 /\
     (forall j, j <> Z.to_nat (rowSelect - 4) ->
                m_led_time s' !! j = m_led_time s !! j)) /\
  (Z.testbit data 7 = false \/ ~ 4 <= rowSelect <= 9 ->
   kim1_u2_write_a data s = Some (tt, s, [])).
Proof.
  intros Hlen rowSelect. split.
  - intros Hb Hsel. eexists.
    split; [exact (kim1_u2_write_a_hit s data Hlen Hb Hsel)|].
    split; [reflexivity|]. cbn [set_led_time m_led_time]. split.
    + apply list_lookup_insert_eq. unfold row_select. lia.
    + intros j Hj. apply list_lookup_insert_ne.
      intros Heq. apply Hj. symmetry. exact Heq.
  - exact (kim1_u2_write_a_miss s data).
Qed.

Lemma kim1_u2_write_a_spec_witness :
  length (m_led_time st_digit3) = 6%nat /\
  kim1_u2_write_a 0x12 st_digit3 = Some (tt, st_digit3, []).
Proof.
  split; [reflexivity|].
  apply (kim1_u2_write_a_spec st_digit3 0x12); [reflexivity|].
  left. reflexivity.
Defined.

(** C7. The port-B write stores [data] in the port-B shadow whatever it is;
    with bit 5 of [data] set it also drives the cassette output, to -1.0 if
    bit 7 is set and to +1.0 otherwise; with bit 5 clear it drives nothing.
    No other member changes. *)
Theorem kim1_u2_write_b_spec (s : kim1_state) (data : Z) :
  exists s' evs,
    kim1_u2_write_b data s = Some (tt, s', evs) /\
    m_u2_port_b s' = data /\
    evs = (if Z.testbit data 5
           then [cass_output (if Z.testbit data 7
                              then dbl_minus_one else dbl_one)]
           else []) /\
    m_videoram s' = m_videoram s /\
    m_311_output s' = m_311_output s /\
    m_cassette_high_count s' = m_cassette_high_count s /\
    m_led_time s' = m_led_time s /\
    m_flipscreen s' = m_flipscreen s /\
    m_madsel_lastcycles s' = m_madsel_lastcycles s.
Proof.
  do 2 eexists. split; [exact (kim1_u2_write_b_run s data)|].
  repeat split.
Qed.

(** C8. For every address in the video window 0x4000-0x5FFF and every byte,
    a bus write followed by a bus read at the same place returns the byte
    written, and the write changes no other cell of the video buffer.  The
    same holds of the two handlers at every offset inside the buffer,
    whatever its size. *)
Theorem bus_write_read_roundtrip (s : kim1_state) (data : Z) :
  (forall offset,
     0 <= offset < Z.of_nat (length (m_videoram s)) ->
     exists s',
       missile_w offset data s = Some (tt, s', []) /\
       missile_r offset s' = Some (data, s', []) /\
       m_videoram s' !! Z.to_nat offset = Some data /\
       (forall j, j <> Z.to_nat offset ->
                  m_videoram s' !! j = m_videoram s !! j) /\
       length (m_videoram s') = length (m_videoram s)) /\
  (forall address,
     Z.of_nat (length (m_videoram s)) = videoram_size ->
     0x4000 <= address <= 0x5FFF ->
     exists s',
       bus_write address data s = Some (tt, s', []) /\
       bus_read address s' = Some (data, s', []) /\
       (forall a, 0x4000 <= a <= 0x5FFF -> a <> address ->
                  m_videoram s' !! Z.to_nat (a - 0x4000) =
                  m_videoram s !! Z.to_nat (a - 0x4000)) /\
       (forall j, j <> Z.to_nat (address - 0x4000) ->
                  m_videoram s' !! j = m_videoram s !! j)).
Proof.
  assert (Hhandlers : forall offset,
     0 <= offset < Z.of_nat (length (m_videoram s)) ->
     let s' := set_videoram (<[Z.to_nat offset := data]> (m_videoram s)) s in
     missile_w offset data s = Some (tt, s', []) /\
     missile_r offset s' = Some (data, s', []) /\
     m_videoram s' !! Z.to_nat offset = Some data /\
     (forall j, j <> Z.to_nat offset ->
                m_videoram s' !! j = m_videoram s !! j) /\
     length (m_videoram s') = length (m_videoram s)).
  { intros offset Hoff s'.
    assert (Hget : m_videoram s' !! Z.to_nat offset = Some data).
    { unfold s'. cbn [set_videoram m_videoram].
      apply list_lookup_insert_eq. lia. }
    split; [exact (missile_w_run s offset data Hoff)|].
    split; [exact (missile_r_run s' offset data (proj1 Hoff) Hget)|].
    split; [exact Hget|]. unfold s'. cbn [set_videoram m_videoram]. split.
    - intros j Hj. apply list_lookup_insert_ne. congruence.
    - apply length_insert. }
  split.
  - intros offset Hoff. eexists. exact (Hhandlers offset Hoff).
  - intros address Hlen Ha.
    assert (Hoff : 0 <= address - 0x4000 < Z.of_nat (length (m_videoram s))).
    { rewrite Hlen. unfold videoram_size, videoram_end, videoram_base. lia. }
    destruct (Hhandlers _ Hoff) as (Hw & Hr & _ & Hother & _).
    eexists. unfold bus_write, bus_read.
    rewrite !decide_True by exact Ha.
    split; [exact Hw|]. split; [exact Hr|]. split; [|exact Hother].
    intros a Ha' Hne. apply Hother. lia.
Qed.

Lemma bus_write_read_roundtrip_witness :
  (Z.of_nat (length (m_videoram st_video)) = videoram_size /\
   0x4000 <= 0x5FFF <= 0x5FFF) /\
  exists s',
    bus_write 0x5FFF 0xA5 st_video = Some (tt, s', []) /\
    bus_read 0x5FFF s' = Some (0xA5, s', []).
Proof.
  assert (H : Z.of_nat (length (m_videoram st_video)) = videoram_size /\
              0x4000 <= 0x5FFF <= 0x5FFF) by (split; [reflexivity|lia]).
  split; [exact H|].
  destruct (proj2 (bus_write_read_roundtrip st_video 0xA5)
              0x5FFF (proj1 H) (proj2 H))
    as (s' & Hw & Hr & _).
  exists s'. split; [exact Hw|exact Hr].
Defined.

(** C9. Every age counter [m_led_time[i]] holds a value of [0,15]: this
    holds after [machine_reset] and every operation preserves it; the
    port-A write sets a counter to 15, the ticker decrements a counter only
    when it is nonzero, and no other operation changes the counters. *)
Theorem led_time_in_range :
  (forall s, length (m_led_time s) = 6%nat ->
     exists s', state_of machine_reset s = Some s' /\ led_time_inv s') /\
  (forall o s s', led_time_inv s -> step o s = Some s' ->
     led_time_inv s' /\ led_time_effect o s s') /\
  (forall s, reachable s -> led_time_inv s) /\
  (forall t, tick_age t = if decide (t = 0) then 0 else (t - 1) mod 256).
Proof.
  split; [|split; [|split]].
  - intros s Hlen. eexists. split.
    + unfold state_of. rewrite (machine_reset_run s Hlen). reflexivity.
    + split; [reflexivity|]. cbn. repeat constructor; lia.
  - intros o s s' Hinv Hstep. split.
    + exact (led_time_inv_step o s s' Hinv Hstep).
    + exact (proj1 (step_effect o s s' (proj1 Hinv) Hstep)).
  - exact reachable_led_time_inv.
  - intros t. unfold tick_age, nonzero, u8.
    case_decide as Ht; [subst t; reflexivity|].
    replace (t =? 0) with false by (symmetry; apply Z.eqb_neq; exact Ht).
    reflexivity.
Qed.

Lemma led_time_in_range_witness :
  reachable st_two_ticks /\ led_time_inv st_two_ticks.
Proof.
  split; [exact st_two_ticks_reachable|].
  exact (proj1 (proj2 (proj2 led_time_in_range))
           st_two_ticks st_two_ticks_reachable).
Defined.

(** C10. In every reachable state the tone output [m_311_output] is 0 or
    0x80 (the reset zeroes it and the cassette sampler only assigns 0x80 or
    0), and so the port-B read returns 0x7F or 0xFF, for every such state
    and every output value echoed by the adapter; the same holds of the
    port-B read in every state whose tone output is a byte. *)
Theorem tone_output_two_valued :
  (forall s, reachable s -> m_311_output s = 0 \/ m_311_output s = 0x80) /\
  (forall s portb_out, reachable s ->
     kim1_u2_read_b portb_out s = Some (0x7F, s, []) \/
     kim1_u2_read_b portb_out s = Some (0xFF, s, [])) /\
  (forall s portb_out, is_u8 (m_311_output s) ->
     kim1_u2_read_b portb_out s = Some (0x7F, s, []) \/
     kim1_u2_read_b portb_out s = Some (0xFF, s, [])) /\
  (forall o s s', reachable s -> step o s = Some s' -> tone_effect o s s').
Proof.
  split; [exact reachable_tone_inv|]. split; [|split].
  - intros s portb_out Hreach. apply kim1_u2_read_b_two_valued.
    unfold is_u8. destruct (reachable_tone_inv s Hreach) as [-> | ->]; lia.
  - exact kim1_u2_read_b_two_valued.
  - intros o s s' Hreach Hstep.
    exact (proj2 (step_effect o s s'
                    (proj1 (reachable_led_time_inv s Hreach)) Hstep)).
Qed.

Lemma tone_output_two_valued_witness :
  reachable st_short_run /\
  (m_311_output st_short_run = 0 \/ m_311_output st_short_run = 0x80) /\
  (kim1_u2_read_b 0 st_short_run = Some (0x7F, st_short_run, []) \/
   kim1_u2_read_b 0 st_short_run = Some (0xFF, st_short_run, [])).
Proof.
  split; [exact st_short_run_reachable|]. split.
  - exact (proj1 tone_output_two_valued st_short_run st_short_run_reachable).
  - exact (proj1 (proj2 tone_output_two_valued)
             st_short_run 0 st_short_run_reachable).
Defined.

(** ** Further properties of the driver *)

(** *** The MADSEL test *)

Lemma get_madsel_run (s : kim1_state) (total_cycles : Z) :
  get_madsel total_cycles s =
  Some (let hit := nonzero (m_madsel_lastcycles s) &&
                   (u64 (total_cycles - m_madsel_lastcycles s) =? 5) in
        (hit, if hit then set_madsel_lastcycles 0 s else s, [])).
Proof.
  unfold get_madsel. rewrite bind_get_run.
  destruct (nonzero (m_madsel_lastcycles s)); [|reflexivity].
  cbn [andb]. rewrite bind_run. unfold when.
  destruct (u64 _ =? 5); reflexivity.
Qed.

(** X1. [get_madsel] answers true exactly when a cycle count was recorded
    (it is not zero) and the CPU is five cycles past it, in [uint64_t]
    arithmetic; a true answer clears the recorded count and changes nothing
    else, a false answer changes nothing; so of two calls in a row, at
    whatever cycle counts, the second one never answers true after a true
    one. *)
Theorem get_madsel_one_shot (s : kim1_state) (t1 t2 : Z) :
  exists (b : bool) (s1 : kim1_state),
    get_madsel t1 s = Some (b, s1, []) /\
    (b = true <->
     m_madsel_lastcycles s <> 0 /\
     (t1 - m_madsel_lastcycles s) mod 2 ^ 64 = 5) /\
    (b = true -> s1 = set_madsel_lastcycles 0 s) /\
    (b = false -> s1 = s) /\
    (b = true -> get_madsel t2 s1 = Some (false, s1, [])).
Proof.
  rewrite get_madsel_run. cbn zeta.
  destruct (nonzero (m_madsel_lastcycles s)) eqn:Hnz; cbn [andb].
  - assert (Hne : m_madsel_lastcycles s <> 0).
    { intros H0. apply nonzero_false in H0. congruence. }
    destruct (Z.eqb_spec (u64 (t1 - m_madsel_lastcycles s)) 5) as [H5|H5].
    + do 2 eexists. split; [reflexivity|].
      split; [split; [intros _; split; assumption|reflexivity]|].
      split; [reflexivity|]. split; [discriminate|].
      intros _. rewrite get_madsel_run. reflexivity.
    + do 2 eexists. split; [reflexivity|].
      split; [split; [discriminate|intros [_ H]; contradiction]|].
      split; [discriminate|]. split; [reflexivity|discriminate].
  - apply nonzero_false in Hnz.
    do 2 eexists. split; [reflexivity|].
    split; [split; [discriminate|intros [H _]; contradiction]|].
    split; [discriminate|]. split; [reflexivity|discriminate].
Qed.

(** *** The video RAM accessors *)

(** X2. What [write_vram] stores at an address inside the video buffer is
    what [read_vram] and the bus handler [missile_r] read back there, and
    what the bus handler [missile_w] stores is what [read_vram] reads back:
    the two paths to the video RAM are one. *)
Theorem vram_paths_agree (s : kim1_state) (address data : Z) :
  0 <= address < Z.of_nat (length (m_videoram s)) ->
  exists s',
    write_vram address data s = Some (tt, s', []) /\
    missile_w address data s = Some (tt, s', []) /\
    read_vram address s' = Some (data, s', []) /\
    missile_r address s' = Some (data, s', []) /\
    (forall j, j <> Z.to_nat address ->
       m_videoram s' !! j = m_videoram s !! j).
Proof.
  intros Ha.
  set (s' := set_videoram (<[Z.to_nat address := data]> (m_videoram s)) s).
  assert (Hget : m_videoram s' !! Z.to_nat address = Some data).
  { unfold s'. cbn [set_videoram m_videoram].
    apply list_lookup_insert_eq. lia. }
  exists s'. split; [exact (missile_w_run s address data Ha)|].
  split; [exact (missile_w_run s address data Ha)|].
  split; [exact (missile_r_run s' address data (proj1 Ha) Hget)|].
  split; [exact (missile_r_run s' address data (proj1 Ha) Hget)|].
  intros j Hne. unfold s'. cbn [set_videoram m_videoram].
  apply list_lookup_insert_ne. congruence.
Qed.

Lemma vram_paths_agree_witness :
  0 <= 7999 < Z.of_nat (length (m_videoram st_video)) /\
  exists s',
    write_vram 7999 0x81 st_video = Some (tt, s', []) /\
    missile_r 7999 s' = Some (0x81, s', []).
Proof.
  assert (H : 0 <= 7999 < Z.of_nat (length (m_videoram st_video)))
    by (vm_compute; split; [discriminate|reflexivity]).
  split; [exact H|].
  destruct (vram_paths_agree st_video 7999 0x81 H)
    as (s' & Hw & _ & _ & Hr & _).
  exists s'. split; [exact Hw|exact Hr].
Defined.

(** *** Runs of cassette samples *)

(** Samples above zero only count. *)
Lemma feed_high_run (samples : list double) (s : kim1_state) :
  Forall (fun t => SFltb dbl_zero t = true) samples ->
  feed samples s =
  Some (tt,
        set_cassette_high_count
          (if decide (samples = []) then m_cassette_high_count s
           else (m_cassette_high_count s + Z.of_nat (length samples))
                mod 2 ^ 32) s, []).
Proof.
  intros Hall. revert s. induction Hall as [|t rest Ht _ IH]; intros s.
  - destruct s. reflexivity.
  - cbn [feed]. rewrite bind_run, (kim1_cassette_input_high s t Ht), IH.
    cbn [set_cassette_high_count m_cassette_high_count app].
    rewrite (decide_False (P := t :: rest = [])) by (intros H; discriminate H).
    change (set_cassette_high_count ?a (set_cassette_high_count ?b s))
      with (set_cassette_high_count a s).
    do 3 f_equal. unfold u32. case_decide as Hr.
    + subst rest. reflexivity.
    + rewrite Z.add_mod_idemp_l by (intros H; discriminate H).
      do 2 f_equal. cbn [length]. lia.
Qed.

Lemma feed_app (l1 l2 : list double) (s : kim1_state) :
  feed (l1 ++ l2) s = (feed l1 ;; feed l2) s.
Proof.
  revert s. induction l1 as [|t l1 IH]; intros s.
  - cbn [app feed]. rewrite bind_run. cbn.
    destruct (feed l2 s) as [[[[] s2] e2]|]; reflexivity.
  - cbn [app feed]. rewrite !bind_run.
    destruct (kim1_cassette_input t s) as [[[[] s1] e1]|]; [|reflexivity].
    rewrite IH, bind_run.
    destruct (feed l1 s1) as [[[[] s2] e2]|]; [|reflexivity].
    destruct (feed l2 s2) as [[[[] s3] e3]|]; [|reflexivity].
    rewrite app_assoc. reflexivity.
Qed.

(** X3. A run of [n] samples above zero that starts at a zero counter and
    is ended by one sample not above zero: for [1 <= n < 8] the tone output
    becomes 0x80, for [8 <= n < 2^32] it becomes 0, and the counter is zero
    again; a run of exactly [2^32] samples wraps the counter to zero and
    leaves the tone output as it was. *)
Theorem cassette_run_classified (s : kim1_state) (high : list double)
        (low : double) :
  m_cassette_high_count s = 0 ->
  Forall (fun t => SFltb dbl_zero t = true) high ->
  SFleb low dbl_zero = true ->
  let n := Z.of_nat (length high) in
  exists s',
    feed (high ++ [low]) s = Some (tt, s', []) /\
    m_cassette_high_count s' = 0 /\
    (1 <= n < 8 -> m_311_output s' = 0x80) /\
    (8 <= n < 2 ^ 32 -> m_311_output s' = 0) /\
    (n = 0 \/ n = 2 ^ 32 -> m_311_output s' = m_311_output s).
Proof.
  intros Hc Hhigh Hlow n.
  rewrite feed_app, bind_run, (feed_high_run high s Hhigh).
  cbn [feed]. rewrite bind_run, kim1_cassette_input_low by exact Hlow.
  cbn [m_cassette_high_count set_cassette_high_count mret M_ret app].
  rewrite Hc, Z.add_0_l. fold n.
  assert (Hn : 0 <= n) by (unfold n; lia).
  assert (Hnil : high = [] <-> n = 0).
  { unfold n. destruct high; cbn; split; intros; try discriminate; try lia;
      reflexivity. }
  eexists. split; [reflexivity|].
  destruct (decide (high = [])) as [Hh|Hh].
  - rewrite decide_True by reflexivity.
    apply Hnil in Hh. cbn. repeat split; try (intros; lia); exact Hc.
  - assert (Hpos : 0 < n) by (destruct (Z.eq_dec n 0) as [H0|H0];
                               [apply Hnil in H0; contradiction|lia]).
    destruct (decide (n mod 2 ^ 32 = 0)) as [Hz|Hz]; cbn.
    + split; [exact Hz|]. split; [|split].
      * intros Hr. rewrite Z.mod_small in Hz by lia. lia.
      * intros Hr. rewrite Z.mod_small in Hz by lia. lia.
      * intros _. reflexivity.
    + split; [reflexivity|]. split; [|split].
      * intros Hr. rewrite Z.mod_small by lia.
        rewrite decide_True by lia. reflexivity.
      * intros Hr. rewrite Z.mod_small by lia.
        rewrite decide_False by lia. reflexivity.
      * intros [H0|Hw]; [lia|]. rewrite Hw, Z.mod_same in Hz by lia.
        contradiction.
Qed.

Lemma cassette_run_classified_witness :
  (m_cassette_high_count st_after_reset = 0 /\
   Forall (fun t => SFltb dbl_zero t = true) (replicate 7 dbl_one) /\
   SFleb (S754_zero true) dbl_zero = true) /\
  exists s',
    feed (replicate 7 dbl_one ++ [S754_zero true]) st_after_reset =
      Some (tt, s', []) /\
    m_311_output s' = 0x80.
Proof.
  assert (H : m_cassette_high_count st_after_reset = 0 /\
              Forall (fun t => SFltb dbl_zero t = true) (replicate 7 dbl_one) /\
              SFleb (S754_zero true) dbl_zero = true).
  { split; [reflexivity|]. split; [|reflexivity].
    repeat constructor. }
  split; [exact H|].
  destruct H as (H1 & H2 & H3).
  destruct (cassette_run_classified st_after_reset (replicate 7 dbl_one)
              (S754_zero true) H1 H2 H3) as (s' & Hrun & _ & Hshort & _).
  exists s'. split; [exact Hrun|]. apply Hshort. cbn. lia.
Defined.

(** X4. Every sample is of exactly one kind: above zero, not above zero
    (minus zero and minus infinity are), or not a number; a sample that is
    not a number neither counts nor ends a run: the sampler leaves the
    state as it was. *)
Theorem cassette_sample_kinds (s : kim1_state) (tap_val : double) :
  (tap_val = S754_nan <->
   SFleb tap_val dbl_zero = false /\ SFltb dbl_zero tap_val = false) /\
  (SFleb tap_val dbl_zero = true -> SFltb dbl_zero tap_val = false) /\
  SFleb (S754_zero true) dbl_zero = true /\
  SFleb (S754_infinity true) dbl_zero = true /\
  SFltb dbl_zero (S754_infinity false) = true /\
  kim1_cassette_input S754_nan s = Some (tt, s, []).
Proof.
  split; [|split; [exact (SFleb_zero_not_pos tap_val)|repeat split]].
  destruct tap_val as [[|]|[|]| |[|] m e]; cbn; split;
    try discriminate; try (intros [H1 H2]; discriminate); auto.
Qed.

(** *** The age counters over many ticks *)

Lemma tick_age_max (a n : Z) :
  is_u8 a -> 0 <= n ->
  tick_age (Z.max 0 (a - n)) = Z.max 0 (a - (n + 1)).
Proof.
  intros [Ha0 Ha1] Hn. destruct (Z_le_gt_dec (a - n) 0) as [Hle|Hgt].
  - rewrite !Z.max_l by lia. reflexivity.
  - rewrite Z.max_r by lia. rewrite tick_age_pos by lia. lia.
Qed.

(** X5. After [n] invocations of the LED ticker with nothing between, every
    age counter [a] stands at [max 0 (a - n)]: the counters count down
    together, stop at zero and never wrap; the other members are as they
    were. *)
Theorem led_ages_after_ticks (s : kim1_state) (n : nat) :
  length (m_led_time s) = 6%nat ->
  Forall is_u8 (m_led_time s) ->
  after_ticks n s =
  Some (set_led_time
          ((fun a => Z.max 0 (a - Z.of_nat n)) <$> m_led_time s) s).
Proof.
  intros Hlen Hu8. induction n as [|n IH].
  - cbn [after_ticks]. f_equal.
    rewrite <- (set_led_time_same s) at 1. f_equal.
    rewrite <- (list_fmap_id (m_led_time s)) at 1.
    apply Forall_fmap_ext. eapply Forall_impl; [exact Hu8|].
    intros a [Ha _]. cbn. lia.
  - cbn [after_ticks]. rewrite IH. cbn [mbind option_bind].
    unfold state_of. rewrite kim1_update_leds_run
      by (cbn [set_led_time m_led_time]; rewrite length_fmap; exact Hlen).
    rewrite set_led_time_twice. cbn [set_led_time m_led_time]. do 2 f_equal.
    rewrite <- list_fmap_compose.
    apply Forall_fmap_ext. eapply Forall_impl; [exact Hu8|].
    intros a Ha. cbn. rewrite tick_age_max by (assumption || lia).
    f_equal. lia.
Qed.

Lemma led_ages_after_ticks_witness :
  (length (m_led_time st_port_b_set) = 6%nat /\
   Forall is_u8 (m_led_time st_port_b_set)) /\
  m_led_time <$> after_ticks 7 st_port_b_set = Some [8; 0; 0; 0; 0; 0].
Proof.
  assert (H : length (m_led_time st_port_b_set) = 6%nat /\
              Forall is_u8 (m_led_time st_port_b_set)).
  { split; [reflexivity|]. repeat constructor; unfold is_u8; lia. }
  split; [exact H|].
  rewrite (led_ages_after_ticks st_port_b_set 7 (proj1 H) (proj2 H)).
  reflexivity.
Defined.

(** X6. The first tick of the LED ticker after a reset blanks the six
    digits, from digit 0 to digit 5, and leaves the state as the reset
    left it. *)
Theorem reset_then_tick_blanks_all (s : kim1_state) :
  length (m_led_time s) = 6%nat ->
  exists s',
    machine_reset s = Some (tt, s', []) /\
    (machine_reset ;; kim1_update_leds) s =
    Some (tt, s',
          [set_digit_value 0 0; set_digit_value 1 0; set_digit_value 2 0;
           set_digit_value 3 0; set_digit_value 4 0; set_digit_value 5 0]).
Proof.
  intros Hlen. eexists. split; [exact (machine_reset_run s Hlen)|].
  rewrite bind_run, (machine_reset_run s Hlen).
  rewrite kim1_update_leds_run by reflexivity. reflexivity.
Qed.

Lemma reset_then_tick_blanks_all_witness :
  length (m_led_time st_port_b_set) = 6%nat /\
  (machine_reset ;; kim1_update_leds) st_port_b_set =
  Some (tt, st_after_reset,
        [set_digit_value 0 0; set_digit_value 1 0; set_digit_value 2 0;
         set_digit_value 3 0; set_digit_value 4 0; set_digit_value 5 0]).
Proof.
  split; [reflexivity|].
  destruct (reset_then_tick_blanks_all st_port_b_set eq_refl)
    as (s' & Hr & Hrun).
  injection Hr as <-. exact Hrun.
Defined.

(** *** What the devices are told *)

Lemma blanks_only_digits (l : list Z) (i : Z) (e : event) :
  e ∈ blanks i l ->
  exists j, e = set_digit_value j 0 /\ i <= j < i + Z.of_nat (length l).
Proof.
  revert i. induction l as [|t l IH]; intros i; cbn [blanks].
  - intros H. inversion H.
  - rewrite elem_of_app. intros [Hhd|Htl].
    + destruct (nonzero t); [inversion Hhd|].
      apply list_elem_of_singleton in Hhd.
      exists i. split; [exact Hhd|]. cbn [length]. lia.
    + destruct (IH _ Htl) as (j & He & Hj).
      exists j. split; [exact He|]. cbn [length]. lia.
Qed.

Lemma land_0x7f_range (x : Z) : 0 <= Z.land x 0x7F < 128.
Proof.
  change 127 with (Z.ones 7). rewrite Z.land_ones by lia.
  apply Z.mod_pos_bound. lia.
Qed.

(** X7. Whatever operation runs, the display sink is only told digits 0 to
    5 and patterns of seven bits (by the port-A write) or 0 (by the
    ticker); the cassette output is only driven by a port-B write with bit
    5 set, to -1.0 or +1.0 after bit 7; the CPU lines are only driven by
    their own key callbacks. *)
Theorem device_calls_well_formed (o : op) (s : kim1_state)
        (evs : list event) (e : event) :
  length (m_led_time s) = 6%nat ->
  step_calls o s = Some evs ->
  e ∈ evs ->
  match e with
  | set_digit_value i v =>
      0 <= i < 6 /\ 0 <= v < 128 /\
      (o = op_update_leds /\ v = 0 \/
       exists data, o = op_u2_write_a data /\ v = Z.land data 0x7F /\
                    i = row_select (m_u2_port_b s) - 4)
  | cass_output level =>
      exists data, o = op_u2_write_b data /\ Z.testbit data 5 = true /\
                   level = (if Z.testbit data 7
                            then dbl_minus_one else dbl_one)
  | set_input_line l v =>
      (exists newval, o = op_trigger_reset newval /\ l = INPUT_LINE_RESET /\
                      v = if decide (newval = 0)
                          then ASSERT_LINE else CLEAR_LINE) \/
      (exists newval, o = op_trigger_nmi newval /\ l = INPUT_LINE_NMI /\
                      v = if decide (newval = 0)
                          then ASSERT_LINE else CLEAR_LINE)
  end.
Proof.
  intros Hlen Hcalls Hin.
  assert (Hline : forall newval,
             (if nonzero newval then CLEAR_LINE else ASSERT_LINE) =
             (if decide (newval = 0) then ASSERT_LINE else CLEAR_LINE)).
  { intros newval. unfold nonzero. case_decide as Hz.
    - subst. reflexivity.
    - replace (newval =? 0) with false
        by (symmetry; apply Z.eqb_neq; exact Hz). reflexivity. }
  destruct o; cbn [step_calls] in Hcalls; unfold calls_of in Hcalls.
  - rewrite kim1_u2_read_a_run in Hcalls. injection Hcalls as <-.
    inversion Hin.
  - pose proof (row_select_range (m_u2_port_b s)) as Hr.
    destruct (Z.testbit data 7) eqn:Hb;
      [|rewrite (kim1_u2_write_a_miss s data (or_introl Hb)) in Hcalls;
        injection Hcalls as <-; inversion Hin].
    destruct (decide (4 <= row_select (m_u2_port_b s) <= 9)) as [Hsel|Hsel];
      [|rewrite (kim1_u2_write_a_miss s data (or_intror Hsel)) in Hcalls;
        injection Hcalls as <-; inversion Hin].
    rewrite (kim1_u2_write_a_hit s data Hlen Hb Hsel) in Hcalls.
    injection Hcalls as <-. apply list_elem_of_singleton in Hin. subst e.
    split; [lia|]. split; [apply land_0x7f_range|].
    right. exists data. repeat split.
  - rewrite kim1_u2_read_b_run in Hcalls. injection Hcalls as <-.
    inversion Hin.
  - rewrite kim1_u2_write_b_run in Hcalls.
    destruct (Z.testbit data 5) eqn:Hb5; injection Hcalls as <-;
      [|inversion Hin].
    apply list_elem_of_singleton in Hin. subst e.
    exists data. repeat split. exact Hb5.
  - destruct (SFltb dbl_zero tap_val) eqn:Hlt.
    { rewrite (kim1_cassette_input_high s tap_val Hlt) in Hcalls.
      injection Hcalls as <-. inversion Hin. }
    destruct (SFleb tap_val dbl_zero) eqn:Hle.
    { rewrite (kim1_cassette_input_low s tap_val Hle) in Hcalls.
      injection Hcalls as <-. inversion Hin. }
    rewrite (kim1_cassette_input_nan s tap_val Hle Hlt) in Hcalls.
    injection Hcalls as <-. inversion Hin.
  - rewrite (kim1_update_leds_run s Hlen) in Hcalls. injection Hcalls as <-.
    destruct (blanks_only_digits _ _ _ Hin) as (j & -> & Hj).
    rewrite Hlen in Hj. split; [lia|]. split; [lia|]. left. split; reflexivity.
  - injection Hcalls as <-. inversion Hin.
  - rewrite (machine_reset_run s Hlen) in Hcalls. injection Hcalls as <-.
    inversion Hin.
  - destruct (decide (0 <= offset < Z.of_nat (length (m_videoram s))))
      as [Hoff|Hoff].
    + rewrite (missile_w_run s offset data Hoff) in Hcalls.
      injection Hcalls as <-. inversion Hin.
    + rewrite (missile_w_out_of_bounds s offset data Hoff) in Hcalls.
      discriminate Hcalls.
  - destruct (decide (0 <= offset < Z.of_nat (length (m_videoram s))))
      as [Hoff|Hoff].
    + destruct (lookup_lt_is_Some_2 (m_videoram s) (Z.to_nat offset))
        as [v Hv]; [lia|].
      rewrite (missile_r_run s offset v (proj1 Hoff) Hv) in Hcalls.
      injection Hcalls as <-. inversion Hin.
    + rewrite (missile_r_out_of_bounds s offset Hoff) in Hcalls.
      discriminate Hcalls.
  - injection Hcalls as <-. apply list_elem_of_singleton in Hin. subst e.
    left. exists newval. repeat split. apply Hline.
  - injection Hcalls as <-. apply list_elem_of_singleton in Hin. subst e.
    right. exists newval. repeat split. apply Hline.
Qed.

Lemma device_calls_well_formed_witness :
  (length (m_led_time st_digit3) = 6%nat /\
   step_calls (op_u2_write_a 0xE6) st_digit3 = Some [set_digit_value 3 0x66] /\
   set_digit_value 3 0x66 ∈ [set_digit_value 3 0x66]) /\
  0 <= 3 < 6 /\ 0 <= 0x66 < 128.
Proof.
  assert (H : length (m_led_time st_digit3) = 6%nat /\
              step_calls (op_u2_write_a 0xE6) st_digit3 =
                Some [set_digit_value 3 0x66] /\
              set_digit_value 3 0x66 ∈ [set_digit_value 3 0x66]).
  { split; [reflexivity|]. split; [reflexivity|]. constructor. }
  split; [exact H|].
  destruct H as (H1 & H2 & H3).
  destruct (device_calls_well_formed (op_u2_write_a 0xE6) st_digit3
              [set_digit_value 3 0x66] (set_digit_value 3 0x66) H1 H2 H3)
    as (Hi & Hv & _).
  split; [exact Hi|exact Hv].
Defined.

(** *** Sequences of operations *)

(** What one operation leaves of the members no claim is about. *)
Lemma step_frame (o : op) (s s' : kim1_state) :
  length (m_led_time s) = 6%nat ->
  step o s = Some s' ->
  m_flipscreen s' = m_flipscreen s /\
  m_madsel_lastcycles s' = m_madsel_lastcycles s /\
  length (m_videoram s') = length (m_videoram s) /\
  ((forall offset data, o <> op_missile_w offset data) ->
   m_videoram s' = m_videoram s) /\
  ((forall data, o <> op_u2_write_b data) ->
   m_u2_port_b s' = m_u2_port_b s).
Proof.
  intros Hlen Hstep. pose proof (step_cases o s Hlen) as Hc.
  rewrite Hstep in Hc.
  destruct o; cbn [step_spec] in Hc;
    try (injection Hc as ->; repeat split; reflexivity).
  - destruct Hc as [Hc|[i Hc]]; injection Hc as ->; repeat split.
  - injection Hc as ->. repeat split. intros Hne.
    exfalso. exact (Hne data eq_refl).
  - destruct Hc as [Hc|[Hc|(v & _ & Hc)]]; injection Hc as ->; repeat split.
  - case_decide; [|discriminate Hc]. injection Hc as ->.
    cbn [set_videoram m_videoram m_flipscreen m_madsel_lastcycles m_u2_port_b].
    repeat split.
    + apply length_insert.
    + intros Hne. exfalso. exact (Hne offset data eq_refl).
  - case_decide; [|discriminate Hc]. injection Hc as ->. repeat split.
Qed.

(** X8. No sequence of operations indexes an array outside its bounds:
    from a state with six age counters, every list of operations whose
    video-window offsets are inside the video buffer runs to the end; the
    six counters and the size of the video buffer are kept. *)
Theorem run_ops_defined (os : list op) (s : kim1_state) :
  length (m_led_time s) = 6%nat ->
  video_offsets_below (Z.of_nat (length (m_videoram s))) os ->
  exists s',
    run_ops os s = Some s' /\
    length (m_led_time s') = 6%nat /\
    length (m_videoram s') = length (m_videoram s).
Proof.
  revert s. induction os as [|o os IH]; intros s Hlen Hoff.
  - exists s. repeat split. exact Hlen.
  - apply Forall_cons in Hoff as [Ho Hos].
    assert (Hb : op_in_bounds o s) by (destruct o; exact Ho || exact I).
    destruct (step_defined o s Hlen Hb) as [s1 Hs1].
    pose proof (step_led_time_length o s s1 Hlen Hs1) as Hlen1.
    destruct (step_frame o s s1 Hlen Hs1) as (_ & _ & Hv & _).
    destruct (IH s1 Hlen1) as (s' & Hrun & Hlen' & Hv').
    { unfold video_offsets_below. rewrite Hv. exact Hos. }
    exists s'. cbn [run_ops]. rewrite Hs1. cbn [mbind option_bind].
    split; [exact Hrun|]. split; [exact Hlen'|]. congruence.
Qed.

Lemma run_ops_defined_witness :
  (length (m_led_time st_video) = 6%nat /\
   video_offsets_below (Z.of_nat (length (m_videoram st_video)))
     [op_missile_w 8191 0xFF; op_u2_write_b 0x0E; op_u2_write_a 0xE6;
      op_update_leds; op_machine_reset; op_missile_r 8191]) /\
  exists s',
    run_ops [op_missile_w 8191 0xFF; op_u2_write_b 0x0E; op_u2_write_a 0xE6;
             op_update_leds; op_machine_reset; op_missile_r 8191] st_video
    = Some s'.
Proof.
  assert (H : length (m_led_time st_video) = 6%nat /\
     video_offsets_below (Z.of_nat (length (m_videoram st_video)))
       [op_missile_w 8191 0xFF; op_u2_write_b 0x0E; op_u2_write_a 0xE6;
        op_update_leds; op_machine_reset; op_missile_r 8191]).
  { split; [reflexivity|].
    repeat constructor; vm_compute; congruence. }
  split; [exact H|].
  destruct (run_ops_defined _ st_video (proj1 H) (proj2 H)) as (s' & Hrun & _).
  exists s'. exact Hrun.
Defined.

(** X9. No operation of the machine sets the flip flag or records a cycle
    count for the MADSEL test, only a video-window write changes the video
    buffer (a reset does not clear it) and only a port-B write changes the
    port-B shadow.  So over any sequence of operations the flip flag and
    the recorded count stay, and from a zero count [get_madsel] answers
    false for good. *)
Theorem run_ops_frame (os : list op) (s s' : kim1_state) :
  length (m_led_time s) = 6%nat ->
  run_ops os s = Some s' ->
  m_flipscreen s' = m_flipscreen s /\
  m_madsel_lastcycles s' = m_madsel_lastcycles s /\
  ((forall offset data, op_missile_w offset data ∉ os) ->
   m_videoram s' = m_videoram s) /\
  ((forall data, op_u2_write_b data ∉ os) ->
   m_u2_port_b s' = m_u2_port_b s) /\
  (m_madsel_lastcycles s = 0 ->
   forall total_cycles, get_madsel total_cycles s' = Some (false, s', [])).
Proof.
  intros Hlen Hrun.
  assert (Hframe :
    m_flipscreen s' = m_flipscreen s /\
    m_madsel_lastcycles s' = m_madsel_lastcycles s /\
    ((forall offset data, op_missile_w offset data ∉ os) ->
     m_videoram s' = m_videoram s) /\
    ((forall data, op_u2_write_b data ∉ os) ->
     m_u2_port_b s' = m_u2_port_b s)).
  { revert s Hlen Hrun. induction os as [|o os IH]; intros s Hlen Hrun.
    - injection Hrun as <-. repeat split.
    - cbn [run_ops] in Hrun. destruct (step o s) as [s1|] eqn:Hs1;
        [|discriminate Hrun]. cbn [mbind option_bind] in Hrun.
      pose proof (step_led_time_length o s s1 Hlen Hs1) as Hlen1.
      destruct (step_frame o s s1 Hlen Hs1) as (Hf & Hm & _ & Hv & Hb).
      destruct (IH s1 Hlen1 Hrun) as (Hf' & Hm' & Hv' & Hb').
      split; [congruence|]. split; [congruence|]. split.
      + intros Hno. rewrite Hv', Hv; [reflexivity| |].
        * intros offset data ->. apply (Hno offset data). constructor.
        * intros offset data Hin. apply (Hno offset data). constructor.
          exact Hin.
      + intros Hno. rewrite Hb', Hb; [reflexivity| |].
        * intros data ->. apply (Hno data). constructor.
        * intros data Hin. apply (Hno data). constructor. exact Hin. }
  destruct Hframe as (Hf & Hm & Hv & Hb).
  split; [exact Hf|]. split; [exact Hm|]. split; [exact Hv|].
  split; [exact Hb|].
  intros Hz total_cycles. rewrite get_madsel_run, Hm, Hz. reflexivity.
Qed.

Lemma run_ops_frame_witness :
  (length (m_led_time st_video) = 6%nat /\
   run_ops [op_u2_write_b 0x0E; op_machine_reset] st_video =
     Some (set_u2_port_b 0x0E st_video)) /\
  m_videoram (set_u2_port_b 0x0E st_video) = m_videoram st_video /\
  get_madsel 5 (set_u2_port_b 0x0E st_video) =
    Some (false, set_u2_port_b 0x0E st_video, []).
Proof.
  assert (H : length (m_led_time st_video) = 6%nat /\
              run_ops [op_u2_write_b 0x0E; op_machine_reset] st_video =
                Some (set_u2_port_b 0x0E st_video))
    by (split; reflexivity).
  split; [exact H|].
  destruct (run_ops_frame _ st_video _ (proj1 H) (proj2 H))
    as (_ & _ & Hv & _ & Hm).
  split.
  - apply Hv. intros offset data Hin.
    apply elem_of_cons in Hin as [Hin|Hin]; [discriminate Hin|].
    apply list_elem_of_singleton in Hin. discriminate Hin.
  - apply Hm. reflexivity.
Defined.

(** *** Port B selects what port A reaches *)

(** X10. A byte written to port B selects, by its bits 1 to 4, what the
    next access to port A reaches: a read returns the keyboard row 0, 1 or
    2 of that number and 0xFF for every other number; a write with bit 7
    set reaches the digit of that number less 4 when the number is 4 to 9,
    and no digit otherwise.  Of the other bits of the byte only bit 5
    shows, in the cassette output the port-B write drives. *)
Theorem port_b_selects (s : kim1_state) (b data : Z) (r : rows) :
  length (m_led_time s) = 6%nat ->
  is_u8 (ROW0 r) -> is_u8 (ROW1 r) -> is_u8 (ROW2 r) ->
  let sel := Z.land (Z.shiftr b 1) 0x0F in
  let cass := if Z.testbit b 5
              then [cass_output (if Z.testbit b 7
                                 then dbl_minus_one else dbl_one)]
              else [] in
  (kim1_u2_write_b b ;; kim1_u2_read_a r) s =
    Some (if decide (sel = 0) then ROW0 r
          else if decide (sel = 1) then ROW1 r
          else if decide (sel = 2) then ROW2 r
          else 0xFF, set_u2_port_b b s, cass) /\
  (Z.testbit data 7 = true ->
   calls_of (kim1_u2_write_b b ;; kim1_u2_write_a data) s =
     Some (cass ++
           if decide (4 <= sel <= 9)
           then [set_digit_value (sel - 4) (Z.land data 0x7F)]
           else [])).
Proof.
  intros Hlen H0 H1 H2 sel cass. split.
  - rewrite bind_run, kim1_u2_write_b_run, kim1_u2_read_a_run.
    cbn [set_u2_port_b m_u2_port_b]. fold cass. rewrite app_nil_r.
    change (row_select b) with sel.
    pose proof (row_select_range b) as Hr. change (row_select b) with sel in Hr.
    rewrite !u8_small by assumption.
    repeat case_decide;
      try match goal with H : sel = _ |- _ => rewrite H; reflexivity end.
    destruct sel as [|[[?|?|]|[?|?|]|]|?]; try reflexivity; lia.
  - intros Hb7. unfold calls_of.
    rewrite bind_run, kim1_u2_write_b_run. fold cass.
    case_decide as Hsel.
    + rewrite kim1_u2_write_a_hit; [reflexivity|exact Hlen|exact Hb7|exact Hsel].
    + rewrite kim1_u2_write_a_miss; [reflexivity|right; exact Hsel].
Qed.

Lemma port_b_selects_witness :
  (length (m_led_time st_row2) = 6%nat /\
   (is_u8 0x7F /\ is_u8 0xFF /\ is_u8 0xBF) /\
   Z.testbit 0xE6 7 = true) /\
  calls_of (kim1_u2_write_b 0xAE ;; kim1_u2_write_a 0xE6) st_row2 =
    Some [cass_output dbl_minus_one; set_digit_value 3 0x66].
Proof.
  assert (H : length (m_led_time st_row2) = 6%nat /\
              (is_u8 0x7F /\ is_u8 0xFF /\ is_u8 0xBF) /\
              Z.testbit 0xE6 7 = true).
  { split; [reflexivity|]. split; [unfold is_u8; lia|]. reflexivity. }
  split; [exact H|].
  destruct H as (Hl & (H0 & H1 & H2) & Hb7).
  exact (proj2 (port_b_selects st_row2 0xAE 0xE6 (mk_rows 0x7F 0xFF 0xBF)
                  Hl H0 H1 H2) Hb7).
Defined.

(** *** The screen update *)

(** The equation of the loop [for (i = lo; i <= hi; i += step)]. *)
Lemma for_up_unfold {A : Type} (lo hi step : Z)
      (body : Z -> A -> option A) (a : A) :
  0 < step ->
  for_up lo hi step body a =
  if decide (lo <= hi)
  then a' ← body lo a; for_up (lo + step) hi step body a'
  else Some a.
Proof.
  intros Hstep. unfold for_up, trip_count.
  destruct (decide (lo <= hi)) as [Hle|Hgt]; [|reflexivity].
  assert (Htrip : Z.to_nat ((hi - lo) / step + 1) =
                  S (if decide (lo + step <= hi)
                     then Z.to_nat ((hi - (lo + step)) / step + 1) else O)).
  { case_decide as Hnext.
    - replace (hi - lo) with ((hi - (lo + step)) + 1 * step) by lia.
      rewrite Z.div_add by lia.
      assert (0 <= (hi - (lo + step)) / step)
        by (apply Z.div_pos; lia).
      lia.
    - rewrite Z.div_small by lia. reflexivity. }
  rewrite Htrip. reflexivity.
Qed.

Lemma pix_colour_bit (pix k : Z) :
  0 <= k ->
  pix_colour pix (2 ^ k) = if Z.testbit pix k then 0xffffff else 0x0.
Proof.
  intros Hk. unfold pix_colour. rewrite nonzero_land_pow2 by exact Hk.
  reflexivity.
Qed.

(** The eight pixels of one byte, the leftmost from bit 7. *)
Lemma draw8_spec (bm : bitmap) (y x pix y' x' : Z) :
  draw8 bm y x pix y' x' =
  if decide (y' = y /\ x <= x' < x + 8)
  then (if Z.testbit pix (7 - (x' - x)) then 0xffffff else 0x0)
  else bm y' x'.
Proof.
  unfold draw8, pix_set.
  rewrite (pix_colour_bit pix 7 ltac:(lia) : pix_colour pix 128 = _).
  rewrite (pix_colour_bit pix 6 ltac:(lia) : pix_colour pix 64 = _).
  rewrite (pix_colour_bit pix 5 ltac:(lia) : pix_colour pix 32 = _).
  rewrite (pix_colour_bit pix 4 ltac:(lia) : pix_colour pix 16 = _).
  rewrite (pix_colour_bit pix 3 ltac:(lia) : pix_colour pix 8 = _).
  rewrite (pix_colour_bit pix 2 ltac:(lia) : pix_colour pix 4 = _).
  rewrite (pix_colour_bit pix 1 ltac:(lia) : pix_colour pix 2 = _).
  rewrite (pix_colour_bit pix 0 ltac:(lia) : pix_colour pix 1 = _).
  destruct (decide (y' = y /\ x <= x' < x + 8)) as [[-> Hx]|Hout].
  - assert (Hk : x' = x \/ x' = x + 1 \/ x' = x + 2 \/ x' = x + 3 \/
                 x' = x + 4 \/ x' = x + 5 \/ x' = x + 6 \/ x' = x + 7) by lia.
    destruct Hk as [->|[->|[->|[->|[->|[->|[->| ->]]]]]]];
      repeat case_decide; try (exfalso; lia);
      match goal with
      | |- context [Z.testbit pix (7 - ?d)] => ring_simplify (7 - d)
      end; reflexivity.
  - repeat case_decide; try reflexivity; exfalso; lia.
Qed.

Lemma vram_read_in_bounds (v : list Z) (i : Z) :
  0 <= i < Z.of_nat (length v) ->
  exists pix, vram_read v i = Some pix.
Proof.
  intros Hi. unfold vram_read. rewrite decide_True by lia.
  apply lookup_lt_is_Some_2. lia.
Qed.

Section Row.
Variable s : kim1_state.
Variable c : rectangle.
Variable y : Z.

(** The body of the loop over X. *)
Let body : Z -> bitmap -> option bitmap :=
  fun x bm =>
    pix ← vram_read (m_videoram s) (effy s y * 40 + Z.quot x 8);
    Some (draw8 bm y x pix).

Let px (x0 x' : Z) : Z :=
  let xi := x0 + 8 * ((x' - x0) / 8) in
  match vram_read (m_videoram s) (effy s y * 40 + Z.quot xi 8) with
  | Some pix => if Z.testbit pix (7 - (x' - xi)) then 0xffffff else 0x0
  | None => 0x0
  end.

Lemma px_shift (x0 x' : Z) : x0 + 8 <= x' -> px (x0 + 8) x' = px x0 x'.
Proof.
  intros Hx. unfold px. cbv zeta.
  replace (x0 + 8 + 8 * ((x' - (x0 + 8)) / 8))
    with (x0 + 8 * ((x' - x0) / 8)); [reflexivity|].
  replace (x' - x0) with ((x' - (x0 + 8)) + 1 * 8) by lia.
  rewrite Z.div_add by lia. lia.
Qed.

Lemma px_first (x0 x' pix : Z) :
  x0 <= x' < x0 + 8 ->
  vram_read (m_videoram s) (effy s y * 40 + Z.quot x0 8) = Some pix ->
  px x0 x' = if Z.testbit pix (7 - (x' - x0)) then 0xffffff else 0x0.
Proof.
  intros Hx Hpix. unfold px. cbv zeta.
  rewrite (Z.div_small (x' - x0) 8) by lia.
  rewrite Z.mul_0_r, Z.add_0_r, Hpix. reflexivity.
Qed.

(** [n] rounds of the loop over X from [x0] draw the [8 n] pixels from
    [x0] on in the row [y] and nothing else. *)
Lemma draw_row_loop (n : nat) (x0 : Z) (bm : bitmap) :
  (forall k, 0 <= k < Z.of_nat n ->
     0 <= effy s y * 40 + Z.quot (x0 + 8 * k) 8
       < Z.of_nat (length (m_videoram s))) ->
  exists bm',
    loop_from n x0 8 body bm = Some bm' /\
    forall y' x',
      bm' y' x' =
      if decide (y' = y /\ x0 <= x' < x0 + 8 * Z.of_nat n)
      then px x0 x' else bm y' x'.
Proof.
  revert x0 bm. induction n as [|n IH]; intros x0 bm Hb.
  - exists bm. split; [reflexivity|]. intros y' x'.
    rewrite decide_False by lia. reflexivity.
  - destruct (vram_read_in_bounds (m_videoram s)
                (effy s y * 40 + Z.quot x0 8)) as [pix Hpix].
    { specialize (Hb 0). rewrite Z.mul_0_r, Z.add_0_r in Hb. apply Hb. lia. }
    destruct (IH (x0 + 8) (draw8 bm y x0 pix)) as (bm' & Hrun & Hbm').
    { intros k Hk. specialize (Hb (k + 1)).
      replace (x0 + 8 * (k + 1)) with (x0 + 8 + 8 * k) in Hb by lia.
      apply Hb. lia. }
    exists bm'. split.
    + assert (Hbody : body x0 bm = Some (draw8 bm y x0 pix))
        by (unfold body; rewrite Hpix; reflexivity).
      cbn [loop_from]. rewrite Hbody.
      cbn [mbind option_bind]. exact Hrun.
    + intros y' x'. rewrite Hbm', draw8_spec.
      destruct (decide (y' = y /\ x0 + 8 <= x' < x0 + 8 + 8 * Z.of_nat n))
        as [[-> Hx]|Hout].
      * rewrite decide_True by lia. apply px_shift. lia.
      * destruct (decide (y' = y /\ x0 <= x' < x0 + 8)) as [[-> Hx]|Hout'].
        -- rewrite decide_True by lia. symmetry.
           apply px_first; assumption.
        -- rewrite decide_False by lia. reflexivity.
Qed.
End Row.

Lemma trip_count_8_below (lo hi k : Z) :
  0 <= k < Z.of_nat (trip_count lo hi 8) -> lo + 8 * k <= hi.
Proof.
  unfold trip_count. case_decide as Hle; [|cbn; lia].
  intros Hk.
  assert (0 <= (hi - lo) / 8) by (apply Z.div_pos; lia).
  assert (8 * ((hi - lo) / 8) <= hi - lo)
    by (apply Z.mul_div_le; lia).
  lia.
Qed.

Lemma trip_count_8_end (lo hi : Z) :
  lo <= hi ->
  hi < lo + 8 * Z.of_nat (trip_count lo hi 8) <= hi + 8.
Proof.
  intros Hle. unfold trip_count. rewrite decide_True by exact Hle.
  assert (0 <= (hi - lo) / 8) by (apply Z.div_pos; lia).
  pose proof (Z.mul_div_le (hi - lo) 8 ltac:(lia)).
  pose proof (Z.mul_succ_div_gt (hi - lo) 8 ltac:(lia)).
  lia.
Qed.

Lemma effy_visible (s : kim1_state) (y : Z) :
  0 <= y < VTOTAL ->
  effy s y = (if nonzero (m_flipscreen s) then y else 199 - y) /\
  0 <= effy s y <= 199.
Proof.
  unfold VTOTAL, effy. intros Hy.
  change 255 with (Z.ones 8). rewrite !Z.land_ones by lia.
  destruct (nonzero (m_flipscreen s));
    rewrite Z.mod_small by lia; lia.
Qed.

(** The loop over Y: [m] rows from [y0]. *)
Lemma draw_rows_loop (s : kim1_state) (c : rectangle)
      (m : nat) (y0 : Z) (bm : bitmap) :
  (forall y k, y0 <= y < y0 + Z.of_nat m ->
     0 <= k < Z.of_nat (trip_count (min_x c) (max_x c) 8) ->
     0 <= effy s y * 40 + Z.quot (min_x c + 8 * k) 8
       < Z.of_nat (length (m_videoram s))) ->
  exists bm',
    loop_from m y0 1 (draw_row s c) bm = Some bm' /\
    forall y' x',
      bm' y' x' =
      if decide (y0 <= y' < y0 + Z.of_nat m /\
                 min_x c <= x' <
                 min_x c + 8 * Z.of_nat (trip_count (min_x c) (max_x c) 8))
      then drawn_pixel s c y' x' else bm y' x'.
Proof.
  revert y0 bm. induction m as [|m IH]; intros y0 bm Hb.
  - exists bm. split; [reflexivity|]. intros y' x'.
    rewrite decide_False by lia. reflexivity.
  - destruct (draw_row_loop s y0
                (trip_count (min_x c) (max_x c) 8) (min_x c) bm)
      as (bm1 & Hrow & Hbm1).
    { intros k Hk. apply Hb; lia. }
    destruct (IH (y0 + 1) bm1) as (bm' & Hrun & Hbm').
    { intros y k Hy Hk. apply Hb; lia. }
    exists bm'. split.
    + assert (Hdr : draw_row s c y0 bm = Some bm1) by exact Hrow.
      cbn [loop_from]. rewrite Hdr.
      cbn [mbind option_bind]. exact Hrun.
    + intros y' x'. rewrite Hbm', Hbm1.
      repeat case_decide; try reflexivity; try (exfalso; lia).
      destruct H0 as [-> _]. reflexivity.
Qed.

(** The whole update of a clip rectangle inside the visible area. *)
Lemma screen_update_kim1_run (s : kim1_state) (bm : bitmap) (c : rectangle) :
  in_visible_area c ->
  8000 <= Z.of_nat (length (m_videoram s)) ->
  exists bm',
    screen_update_kim1 s bm c = Some (0, bm') /\
    forall y x,
      bm' y x =
      if decide (min_y c <= y <= max_y c /\
                 min_x c <= x <
                 min_x c + 8 * Z.of_nat (trip_count (min_x c) (max_x c) 8))
      then drawn_pixel s c y x else bm y x.
Proof.
  intros (Hx0 & Hx1 & Hy0 & Hy1) Hlen. unfold HTOTAL, VTOTAL in *.
  destruct (draw_rows_loop s c (trip_count (min_y c) (max_y c) 1)
              (min_y c) bm) as (bm' & Hrun & Hbm').
  { intros y k Hy Hk.
    pose proof (trip_count_8_below _ _ _ Hk) as Hkx.
    assert (Hyv : 0 <= y < VTOTAL).
    { unfold VTOTAL. unfold trip_count in Hy.
      destruct (decide (min_y c <= max_y c)); [|cbn in Hy; lia].
      rewrite Z.div_1_r in Hy. lia. }
    destruct (effy_visible s y Hyv) as [_ He].
    rewrite Z.quot_div_nonneg by lia.
    assert (0 <= (min_x c + 8 * k) / 8 < 40).
    { split; [apply Z.div_pos; lia|].
      apply Z.div_lt_upper_bound; lia. }
    lia. }
  exists bm'. split.
  - unfold screen_update_kim1, for_up. rewrite Hrun. reflexivity.
  - intros y x. rewrite Hbm'.
    assert (Hrows : min_y c <= y <
                    min_y c + Z.of_nat (trip_count (min_y c) (max_y c) 1) <->
                    min_y c <= y <= max_y c).
    { unfold trip_count. case_decide; [|cbn; lia].
      rewrite Z.div_1_r. lia. }
    repeat case_decide; try reflexivity; exfalso; tauto.
Qed.



(** With the left edge on a byte boundary the update draws the video RAM
    as it is. *)
Lemma drawn_pixel_aligned (s : kim1_state) (c : rectangle) (y x : Z) :
  min_x c mod 8 = 0 ->
  0 <= min_x c <= x ->
  drawn_pixel s c y x = vram_pixel s y x.
Proof.
  intros Hal Hx. unfold drawn_pixel, vram_pixel. cbv zeta.
  assert (Hq : min_x c = 8 * (min_x c / 8))
    by (apply Z_div_exact_full_2; [lia|exact Hal]).
  assert (Hxi : min_x c + 8 * ((x - min_x c) / 8) = 8 * (x / 8)).
  { rewrite Hq at 2.
    replace (x - 8 * (min_x c / 8)) with (x + (- (min_x c / 8)) * 8) by lia.
    rewrite Z.div_add by lia. lia. }
  rewrite Hxi.
  assert (0 <= x / 8) by (apply Z.div_pos; lia).
  rewrite Z.quot_div_nonneg by lia.
  rewrite (Z.mul_comm 8 (x / 8)), Z.div_mul by lia.
  rewrite (Z.mul_comm (x / 8) 8), <- Z.mod_eq by lia.
  reflexivity.
Qed.

(** X12. When the left edge of the clip rectangle is a multiple of 8, the
    update shows the video RAM as it is: the pixel [(x, y)] of the
    rectangle is white when bit [7 - x mod 8] of the byte
    [m_videoram[effy * 40 + x / 8]] is set and black otherwise, where
    [effy] is [199 - y], or [y] when the flip flag is set; the byte is one
    of the first 8000. *)
Theorem screen_update_kim1_pixels (s : kim1_state) (bm : bitmap)
        (c : rectangle) :
  in_visible_area c ->
  8000 <= Z.of_nat (length (m_videoram s)) ->
  min_x c mod 8 = 0 ->
  exists bm',
    screen_update_kim1 s bm c = Some (0, bm') /\
    forall y x,
      min_y c <= y <= max_y c -> min_x c <= x <= max_x c ->
      let row := if decide (m_flipscreen s = 0) then 199 - y else y in
      0 <= row * 40 + x / 8 < 8000 /\
      exists pix,
        m_videoram s !! Z.to_nat (row * 40 + x / 8) = Some pix /\
        bm' y x = if Z.testbit pix (7 - x mod 8) then 0xffffff else 0.
Proof.
  intros Hvis Hlen Hal.
  destruct (screen_update_kim1_run s bm c Hvis Hlen) as (bm' & Hrun & Hbm').
  exists bm'. split; [exact Hrun|].
  intros y x Hy Hx row.
  destruct Hvis as (Hx0 & Hx1 & Hy0 & Hy1). unfold HTOTAL, VTOTAL in *.
  destruct (effy_visible s y) as [He _]; [unfold VTOTAL; lia|].
  assert (Hrow : effy s y = row).
  { rewrite He. unfold row, nonzero. case_decide as Hf.
    - rewrite Hf. reflexivity.
    - replace (m_flipscreen s =? 0) with false
        by (symmetry; apply Z.eqb_neq; exact Hf). reflexivity. }
  assert (Hcol : 0 <= x / 8 < 40).
  { split; [apply Z.div_pos; lia|apply Z.div_lt_upper_bound; lia]. }
  assert (Hidx : 0 <= row * 40 + x / 8 < 8000)
    by (unfold row; case_decide; lia).
  split; [exact Hidx|].
  destruct (lookup_lt_is_Some_2 (m_videoram s) (Z.to_nat (row * 40 + x / 8)))
    as [pix Hpix]; [lia|].
  exists pix. split; [exact Hpix|].
  rewrite Hbm', decide_True.
  - rewrite drawn_pixel_aligned by (assumption || lia).
    unfold vram_pixel, vram_read. rewrite Hrow.
    rewrite decide_True by lia. rewrite Hpix. reflexivity.
  - split; [exact Hy|].
    pose proof (trip_count_8_end (min_x c) (max_x c)). lia.
Qed.

Lemma screen_update_kim1_pixels_witness :
  (in_visible_area (mk_rectangle 0 319 0 199) /\
   8000 <= Z.of_nat (length (m_videoram st_video)) /\
   0 mod 8 = 0) /\
  exists bm',
    screen_update_kim1 st_video (fun _ _ => 7) (mk_rectangle 0 319 0 199)
      = Some (0, bm') /\
    bm' 199 319 = 0.
Proof.
  assert (H : in_visible_area (mk_rectangle 0 319 0 199) /\
              8000 <= Z.of_nat (length (m_videoram st_video)) /\
              0 mod 8 = 0).
  { split; [unfold in_visible_area, HTOTAL, VTOTAL; cbn; lia|].
    split; [vm_compute; discriminate|reflexivity]. }
  split; [exact H|].
  destruct H as (H1 & H2 & H3).
  destruct (screen_update_kim1_pixels st_video (fun _ _ => 7)
              (mk_rectangle 0 319 0 199) H1 H2 H3) as (bm' & Hrun & Hpix).
  exists bm'. split; [exact Hrun|].
  destruct (Hpix 199 319) as (_ & pix & Hlook & Hc); [cbn; lia|cbn; lia|].
  rewrite Hc. vm_compute in Hlook. injection Hlook as <-. reflexivity.
Defined.

(** X13. A byte the CPU writes through the video window shows on the
    screen: after [missile_w] at an offset below 8000, an update of the
    whole screen draws the eight bits of the byte, bit 7 leftmost, at the
    columns [8 * (offset mod 40)] to [8 * (offset mod 40) + 7] of the row
    [199 - offset / 40] (of the row [offset / 40] when the flip flag is
    set), and every other pixel as it would have been without the write. *)
Theorem bus_write_shows_on_screen (s : kim1_state) (bm : bitmap)
        (offset data : Z) :
  8000 <= Z.of_nat (length (m_videoram s)) ->
  0 <= offset < 8000 ->
  let full := mk_rectangle 0 319 0 199 in
  let row := if decide (m_flipscreen s = 0)
             then 199 - offset / 40 else offset / 40 in
  let col := 8 * (offset mod 40) in
  exists s' before after,
    missile_w offset data s = Some (tt, s', []) /\
    screen_update_kim1 s bm full = Some (0, before) /\
    screen_update_kim1 s' bm full = Some (0, after) /\
    (forall k, 0 <= k < 8 ->
       after row (col + k) =
       if Z.testbit data (7 - k) then 0xffffff else 0) /\
    (forall y x, ~ (y = row /\ col <= x < col + 8) ->
       after y x = before y x).
Proof.
  intros Hlen Hoff full row col.
  set (s' := set_videoram (<[Z.to_nat offset := data]> (m_videoram s)) s).
  assert (Hvis : in_visible_area full)
    by (unfold in_visible_area, HTOTAL, VTOTAL; cbn; lia).
  assert (Hlen' : 8000 <= Z.of_nat (length (m_videoram s'))).
  { unfold s'. cbn [set_videoram m_videoram]. rewrite length_insert. exact Hlen. }
  destruct (screen_update_kim1_run s bm full Hvis Hlen)
    as (before & Hrun & Hbefore).
  destruct (screen_update_kim1_run s' bm full Hvis Hlen')
    as (after & Hrun' & Hafter).
  assert (Hq : 0 <= offset / 40 < 200).
  { split; [apply Z.div_pos; lia|apply Z.div_lt_upper_bound; lia]. }
  assert (Hr : 0 <= offset mod 40 < 40) by (apply Z.mod_pos_bound; lia).
  assert (Hrowv : 0 <= row < VTOTAL)
    by (unfold VTOTAL, row; case_decide; lia).
  assert (Heffy : forall st y, m_flipscreen st = m_flipscreen s ->
            0 <= y < VTOTAL ->
            effy st y = if decide (m_flipscreen s = 0) then 199 - y else y).
  { intros st y Hf Hy. destruct (effy_visible st y Hy) as [He _].
    rewrite He, Hf. unfold nonzero. case_decide as Hz.
    - rewrite Hz. reflexivity.
    - replace (m_flipscreen s =? 0) with false
        by (symmetry; apply Z.eqb_neq; exact Hz). reflexivity. }
  assert (Htrip : 0 + 8 * Z.of_nat (trip_count 0 319 8) = 320)
    by reflexivity.
  assert (Hpixel : forall st y x, m_flipscreen st = m_flipscreen s ->
            0 <= y < VTOTAL -> 0 <= x < 320 ->
            drawn_pixel st full y x =
            match m_videoram st !!
                    Z.to_nat ((if decide (m_flipscreen s = 0)
                               then 199 - y else y) * 40 + x / 8) with
            | Some pix => if Z.testbit pix (7 - x mod 8) then 0xffffff else 0
            | None => 0
            end).
  { intros st y x Hf Hy Hx.
    rewrite drawn_pixel_aligned by (cbn; lia || reflexivity).
    unfold vram_pixel, vram_read. rewrite (Heffy st y Hf Hy).
    assert (0 <= x / 8) by (apply Z.div_pos; lia).
    rewrite decide_True; [reflexivity|].
    unfold VTOTAL in Hy. case_decide; lia. }
  exists s', before, after.
  split; [apply missile_w_run; lia|].
  split; [exact Hrun|]. split; [exact Hrun'|]. split.
  - intros k Hk. rewrite Hafter. cbn [min_x max_x min_y max_y full].
    rewrite Htrip. unfold VTOTAL in Hrowv.
    rewrite decide_True by (unfold col; lia).
    rewrite (Hpixel s') by (reflexivity || assumption || unfold col; lia).
    assert (Hdiv : (col + k) / 8 = offset mod 40).
    { unfold col. rewrite (Z.mul_comm 8), Z.div_add_l by lia.
      rewrite (Z.div_small k 8) by lia. lia. }
    assert (Hmod : (col + k) mod 8 = k).
    { unfold col. rewrite Z.add_comm, (Z.mul_comm 8), Z.mod_add by lia.
      apply Z.mod_small. lia. }
    assert (Hidx : (if decide (m_flipscreen s = 0) then 199 - row else row)
                   * 40 + (col + k) / 8 = offset).
    { rewrite Hdiv. unfold row.
      pose proof (Z.div_mod offset 40 ltac:(lia)).
      case_decide; lia. }
    rewrite Hidx, Hmod. unfold s'. cbn [set_videoram m_videoram].
    rewrite list_lookup_insert_eq by lia. reflexivity.
  - intros y x Hout. rewrite Hafter, Hbefore.
    cbn [min_x max_x min_y max_y full]. rewrite Htrip.
    destruct (decide (0 <= y <= 199 /\ 0 <= x < 320)) as [[Hy Hx]|Hnot];
      [|reflexivity].
    rewrite (Hpixel s'), (Hpixel s)
      by (reflexivity || (unfold VTOTAL; lia) || lia).
    unfold s'. cbn [set_videoram m_videoram].
    rewrite list_lookup_insert_ne; [reflexivity|].
    intros Heq. apply Hout.
    assert (0 <= x / 8 < 40).
    { split; [apply Z.div_pos; lia|apply Z.div_lt_upper_bound; lia]. }
    pose proof (Z.div_mod offset 40 ltac:(lia)) as Hdm.
    pose proof (Z.div_mod x 8 ltac:(lia)) as Hxm.
    pose proof (Z.mod_pos_bound x 8 ltac:(lia)) as Hxb.
    unfold row, col.
    assert (Hsame : (if decide (m_flipscreen s = 0) then 199 - y else y) * 40
                    + x / 8 = offset) by (case_decide; lia).
    assert (Hrow40 : (if decide (m_flipscreen s = 0) then 199 - y else y)
                     = offset / 40 /\ x / 8 = offset mod 40).
    { assert (0 <= (if decide (m_flipscreen s = 0) then 199 - y else y))
        by (case_decide; lia).
      split.
      - apply (Z.div_unique offset 40 _ (x / 8)); lia.
      - apply (Z.mod_unique offset 40
                           (if decide (m_flipscreen s = 0)
                            then 199 - y else y) (x / 8)); lia. }
    destruct Hrow40 as [Hr1 Hr2].
    split; [case_decide; lia|lia].
Qed.

Lemma bus_write_shows_on_screen_witness :
  (8000 <= Z.of_nat (length (m_videoram st_video)) /\ 0 <= 41 < 8000) /\
  exists s' after,
    missile_w 41 0x80 st_video = Some (tt, s', []) /\
    screen_update_kim1 s' (fun _ _ => 7) (mk_rectangle 0 319 0 199)
      = Some (0, after) /\
    after 198 8 = 0xffffff /\ after 198 9 = 0.
Proof.
  assert (H : 8000 <= Z.of_nat (length (m_videoram st_video)) /\
              0 <= 41 < 8000).
  { split; [vm_compute; discriminate|lia]. }
  split; [exact H|].
  destruct (bus_write_shows_on_screen st_video (fun _ _ => 7) 41 0x80
              (proj1 H) (proj2 H))
    as (s' & before & after & Hw & _ & Hrun & Hbits & _).
  exists s', after. split; [exact Hw|]. split; [exact Hrun|].
  split; [exact (Hbits 0 ltac:(lia))|exact (Hbits 1 ltac:(lia))].
Defined.

(** X14. The flip flag mirrors the picture top to bottom: of two states
    with the same video RAM, one with the flag clear and one with it set,
    the update of the whole screen draws in row [y] of the second what it
    draws in row [199 - y] of the first. *)
Theorem screen_flip_mirrors (s1 s2 : kim1_state) (bm1 bm2 : bitmap) :
  m_videoram s1 = m_videoram s2 ->
  8000 <= Z.of_nat (length (m_videoram s1)) ->
  m_flipscreen s1 = 0 ->
  m_flipscreen s2 <> 0 ->
  exists out1 out2,
    screen_update_kim1 s1 bm1 (mk_rectangle 0 319 0 199) = Some (0, out1) /\
    screen_update_kim1 s2 bm2 (mk_rectangle 0 319 0 199) = Some (0, out2) /\
    forall y x, 0 <= y <= 199 -> 0 <= x <= 319 ->
                out2 y x = out1 (199 - y) x.
Proof.
  intros Hv Hlen Hf1 Hf2.
  assert (Hvis : in_visible_area (mk_rectangle 0 319 0 199))
    by (unfold in_visible_area, HTOTAL, VTOTAL; cbn; lia).
  assert (Hlen2 : 8000 <= Z.of_nat (length (m_videoram s2)))
    by (rewrite <- Hv; exact Hlen).
  destruct (screen_update_kim1_run s1 bm1 _ Hvis Hlen) as (out1 & Hr1 & Ho1).
  destruct (screen_update_kim1_run s2 bm2 _ Hvis Hlen2) as (out2 & Hr2 & Ho2).
  exists out1, out2. split; [exact Hr1|]. split; [exact Hr2|].
  intros y x Hy Hx. rewrite Ho1, Ho2. cbn [min_x max_x min_y max_y].
  change (0 + 8 * Z.of_nat (trip_count 0 319 8)) with 320.
  rewrite !decide_True by lia.
  rewrite !drawn_pixel_aligned by (cbn; lia || reflexivity).
  unfold vram_pixel.
  destruct (effy_visible s1 (199 - y)) as [He1 _]; [unfold VTOTAL; lia|].
  destruct (effy_visible s2 y) as [He2 _]; [unfold VTOTAL; lia|].
  rewrite He1, He2, Hf1, Hv. unfold nonzero.
  replace (m_flipscreen s2 =? 0) with false
    by (symmetry; apply Z.eqb_neq; exact Hf2).
  cbn [Z.eqb negb]. replace (199 - (199 - y)) with y by lia. reflexivity.
Qed.

Lemma screen_flip_mirrors_witness :
  (m_videoram st_video =
   m_videoram (mk_kim1_state (replicate 0x2000 0) 0 0 0
                 [0; 0; 0; 0; 0; 0] 0x40 0) /\
   8000 <= Z.of_nat (length (m_videoram st_video)) /\
   m_flipscreen st_video = 0 /\
   m_flipscreen (mk_kim1_state (replicate 0x2000 0) 0 0 0
                   [0; 0; 0; 0; 0; 0] 0x40 0) <> 0) /\
  exists out1 out2,
    screen_update_kim1 st_video (fun _ _ => 7) (mk_rectangle 0 319 0 199)
      = Some (0, out1) /\
    screen_update_kim1 (mk_kim1_state (replicate 0x2000 0) 0 0 0
                          [0; 0; 0; 0; 0; 0] 0x40 0)
      (fun _ _ => 9) (mk_rectangle 0 319 0 199) = Some (0, out2) /\
    out2 0 0 = out1 199 0.
Proof.
  assert (H : m_videoram st_video =
              m_videoram (mk_kim1_state (replicate 0x2000 0) 0 0 0
                            [0; 0; 0; 0; 0; 0] 0x40 0) /\
              8000 <= Z.of_nat (length (m_videoram st_video)) /\
              m_flipscreen st_video = 0 /\
              m_flipscreen (mk_kim1_state (replicate 0x2000 0) 0 0 0
                              [0; 0; 0; 0; 0; 0] 0x40 0) <> 0).
  { split; [reflexivity|]. split; [vm_compute; discriminate|].
    split; [reflexivity|]. cbn. lia. }
  split; [exact H|].
  destruct H as (H1 & H2 & H3 & H4).
  destruct (screen_flip_mirrors st_video _ (fun _ _ => 7) (fun _ _ => 9)
              H1 H2 H3 H4) as (out1 & out2 & Hr1 & Hr2 & Hm).
  exists out1, out2. split; [exact Hr1|]. split; [exact Hr2|].
  exact (Hm 0 0 ltac:(lia) ltac:(lia)).
Defined.

(** X15. Reading changes nothing: a sequence of port reads, video-window
    reads inside the buffer, machine starts and key callbacks, of whatever
    length and order, leaves every member of the state as it was. *)
Theorem read_only_ops_keep_state (os : list op) (s : kim1_state) :
  length (m_led_time s) = 6%nat ->
  Forall read_only os ->
  video_offsets_below (Z.of_nat (length (m_videoram s))) os ->
  run_ops os s = Some s.
Proof.
  intros Hlen Hro Hoff. induction os as [|o os IH]; [reflexivity|].
  apply Forall_cons in Hro as [Ho Hro].
  apply Forall_cons in Hoff as [Hb Hoff].
  cbn [run_ops].
  assert (Hstep : step o s = Some s).
  { pose proof (step_cases o s Hlen) as Hc.
    destruct o; cbn [step_spec read_only] in Hc, Ho;
      try contradiction; try exact Hc.
    rewrite decide_True in Hc by exact Hb. exact Hc. }
  rewrite Hstep. cbn [mbind option_bind]. exact (IH Hro Hoff).
Qed.

Lemma read_only_ops_keep_state_witness :
  (length (m_led_time st_video) = 6%nat /\
   Forall read_only [op_missile_r 8191; op_u2_read_b 0; op_trigger_nmi 0] /\
   video_offsets_below (Z.of_nat (length (m_videoram st_video)))
     [op_missile_r 8191; op_u2_read_b 0; op_trigger_nmi 0]) /\
  run_ops [op_missile_r 8191; op_u2_read_b 0; op_trigger_nmi 0] st_video =
    Some st_video.
Proof.
  assert (H : length (m_led_time st_video) = 6%nat /\
     Forall read_only [op_missile_r 8191; op_u2_read_b 0; op_trigger_nmi 0] /\
     video_offsets_below (Z.of_nat (length (m_videoram st_video)))
       [op_missile_r 8191; op_u2_read_b 0; op_trigger_nmi 0]).
  { split; [reflexivity|]. split; [repeat constructor|].
    repeat constructor; vm_compute; congruence. }
  split; [exact H|].
  destruct H as (H1 & H2 & H3).
  exact (read_only_ops_keep_state _ st_video H1 H2 H3).
Defined.
